(** * Hiddy bot: coupon, referral, load-balancing and renewal logic

    A shallow embedding of the decision logic of the repository
    ([Utils/coupons.py], [Utils/affiliates.py], [Utils/utils.py],
    [UserBot/bot.py], [Database/dbManager.py]) together with the
    properties stated about it.

    Conventions.
    - A Python [int] is a [Z]; a Python [float] is an IEEE-754 binary64
      value, represented by [spec_float] with [prec = 53], [emax = 1024]
      and round-to-nearest-even, as computed by the standard library's
      [SFmul], [SFdiv] and [SFadd].
    - A computation that may raise is an [option]: [None] stands for a
      raised exception.  Every function modelled here wraps its body in
      [try ... except Exception], so the kind of exception never matters.
    - Tables of the SQLite store are lists of rows in insertion order; the
      timestamp columns, which no decision reads, are left out. *)

From Stdlib Require Import ZArith List Bool String Ascii Lia.
From Stdlib Require Import Floats.SpecFloat.
Import ListNotations.
Open Scope string_scope.
Open Scope list_scope.
Open Scope Z_scope.

(** ** Python numbers *)

Module PyNum.

Definition prec : Z := 53.
Definition emax : Z := 1024.

Definition float : Type := spec_float.

Definition fmul : float -> float -> float := SFmul prec emax.
Definition fadd : float -> float -> float := SFadd prec emax.
Definition fsub : float -> float -> float := SFsub prec emax.

Definition is_zero (x : float) : bool :=
  match x with S754_zero _ => true | _ => false end.

(** [float(z)] for a Python int: the nearest binary64 value, ties to
    even; [OverflowError] when the int is too large. *)
Definition of_int (z : Z) : option float :=
  match binary_normalize prec emax z 0 false with
  | S754_infinity _ => None
  | x => Some x
  end.

(** [x / y] on floats: [ZeroDivisionError] on a zero divisor. *)
Definition fdiv (x y : float) : option float :=
  if is_zero y then None else Some (SFdiv prec emax x y).

(** [a / b] on ints (true division): the exact quotient, correctly
    rounded; [ZeroDivisionError] on [b = 0], [OverflowError] when the
    quotient is too large. *)
Definition int_truediv (a b : Z) : option float :=
  match a, b with
  | _, Z0 => None
  | Z0, _ => Some (S754_zero (b <? 0))
  | _, _ =>
      let s := xorb (a <? 0) (b <? 0) in
      let '(q, e, l) := SFdiv_core_binary prec emax (Z.abs a) 0 (Z.abs b) 0 in
      match binary_round_aux prec emax s q e l with
      | S754_infinity _ => None
      | x => Some x
      end
  end.

(** [int(x)]: truncation toward zero; [OverflowError] on an infinity,
    [ValueError] on a NaN. *)
Definition int_of_float (x : float) : option Z :=
  match x with
  | S754_zero _ => Some 0
  | S754_finite s m e =>
      let v := match e with
               | Zneg p => Z.shiftr (Zpos m) (Zpos p)
               | _ => Z.shiftl (Zpos m) e
               end in
      Some (if s then - v else v)
  | S754_infinity _ | S754_nan => None
  end.

(** The sign bit, [false] for a NaN. *)
Definition sign_of (x : float) : bool :=
  match x with
  | S754_zero s | S754_infinity s | S754_finite s _ _ => s
  | S754_nan => false
  end.

(** A Python number: an [int] or a [float]. *)
Inductive pynum : Type :=
| PyInt (z : Z)
| PyFloat (f : float).

Definition to_float (n : pynum) : option float :=
  match n with
  | PyInt z => of_int z
  | PyFloat f => Some f
  end.

(** Exact comparison of a float with an int, as Python does it;
    [None] when the float is a NaN (every ordering test is then false). *)
Definition float_cmp_int (f : float) (z : Z) : option comparison :=
  match f with
  | S754_nan => None
  | S754_infinity s => Some (if s then Lt else Gt)
  | S754_zero _ => Some (0 ?= z)
  | S754_finite s m e =>
      let v := if s then Zneg m else Zpos m in
      Some (match e with
            | Zneg p => v ?= z * 2 ^ Zpos p
            | _ => v * 2 ^ e ?= z
            end)
  end.

Definition compare (x y : pynum) : option comparison :=
  match x, y with
  | PyInt a, PyInt b => Some (a ?= b)
  | PyFloat f, PyInt b => float_cmp_int f b
  | PyInt a, PyFloat g => option_map CompOpp (float_cmp_int g a)
  | PyFloat f, PyFloat g => SFcompare f g
  end.

(** [x < y], [x <= y], [x > y], [x >= y], [x == y]. *)
Definition lt (x y : pynum) : bool :=
  match compare x y with Some Lt => true | _ => false end.
Definition le (x y : pynum) : bool :=
  match compare x y with Some (Lt | Eq) => true | _ => false end.
Definition gt (x y : pynum) : bool := lt y x.
Definition ge (x y : pynum) : bool := le y x.
Definition eq (x y : pynum) : bool :=
  match compare x y with Some Eq => true | _ => false end.

(** [x + y]: exact on two ints, binary64 otherwise. *)
Definition add (x y : pynum) : option pynum :=
  match x, y with
  | PyInt a, PyInt b => Some (PyInt (a + b))
  | _, _ =>
      match to_float x, to_float y with
      | Some f, Some g => Some (PyFloat (fadd f g))
      | _, _ => None
      end
  end.

(** [x * y] with an int on the left and a float on the right. *)
Definition int_mul_float (a : Z) (g : float) : option float :=
  option_map (fun f => fmul f g) (of_int a).

(** [x / 100.0]. *)
Definition div_100 (x : pynum) : option float :=
  match to_float x, of_int 100 with
  | Some f, Some h => fdiv f h
  | _, _ => None
  end.

(** [int(a * (x / 100.0))]: the expression both the coupon discount and
    the commission are computed with. *)
Definition int_percent_of (a : Z) (x : pynum) : option Z :=
  match div_100 x with
  | Some r =>
      match int_mul_float a r with
      | Some p => int_of_float p
      | None => None
      end
  | None => None
  end.

Definition pos_inf : float := S754_infinity false.

End PyNum.

(** ** Database/dbManager.py

    The store with a live connection: the only failures modelled are the
    ones the schema itself causes (a violated UNIQUE or FOREIGN KEY
    constraint, which the methods catch as [sqlite3.Error]). *)

Module Database.
Import PyNum.

(** The value found under a key of a row dictionary: the key may be
    missing, hold [None] (SQL NULL), or hold a value.  [SELECT *] always
    yields the key; [Missing] is kept because readers use
    [dict.get(key, default)]. *)
Inductive field (A : Type) : Type :=
| Missing
| Null
| Value (a : A).
Arguments Missing {A}.
Arguments Null {A}.
Arguments Value {A} a.

Record user_row : Type := mk_user {
  telegram_id : Z;
  full_name : string;
  balance : Z;
  banned : bool
}.

Record server_row : Type := mk_server {
  server_id : Z;
  title : string;
  url : string;
  user_limit : field pynum;
  status : field Z
}.

Record plan_row : Type := mk_plan {
  plan_id : Z;
  plan_name : string;
  size_gb : pynum;
  days : Z;
  price : Z;
  plan_server_id : Z;
  plan_status : bool
}.

Record order_row : Type := mk_order {
  order_id : Z;
  order_telegram_id : Z;
  order_plan_id : Z;
  order_server_id : Z;
  order_uuid : string;
  order_price : Z;
  order_status : bool
}.

Record referral_row : Type := mk_referral {
  referral_id : Z;
  referrer_id : Z;
  referred_id : Z;
  commission : Z
}.

Record db : Type := mk_db {
  users : list user_row;
  servers : list server_row;
  plans : list plan_row;
  orders : list order_row;
  referrals : list referral_row
}.

(** What [cur.fetchall()] is turned into: the rows, or [None] when there
    are none. *)
Definition rows_or_none {A : Type} (result : list A) : option (list A) :=
  match result with
  | [] => None
  | _ => Some result
  end.

(** The row id an AUTOINCREMENT key gives to the next inserted row. *)
Definition next_id (ids : list Z) : Z := 1 + fold_right Z.max 0 ids.

Definition find_user (id : Z) (d : db) : option (list user_row) :=
  rows_or_none (filter (fun u => telegram_id u =? id) (users d)).




Definition select_servers (d : db) : option (list server_row) :=
  rows_or_none (servers d).



(** [add_order(...)]: the new row id, or [None] for the [False] returned
    when the insertion violates [uuid UNIQUE] or a foreign key. *)
Definition add_order (tid pid sid : Z) (uuid : string) (price : Z) (d : db)
  : option Z * db :=
  if existsb (fun o => String.eqb (order_uuid o) uuid) (orders d)
     || negb (existsb (fun u => telegram_id u =? tid) (users d))
     || negb (existsb (fun p => plan_id p =? pid) (plans d))
     || negb (existsb (fun s => server_id s =? sid) (servers d))
  then (None, d)
  else
    let oid := next_id (map order_id (orders d)) in
    (Some oid,
     mk_db (users d) (servers d) (plans d)
           (orders d ++ [mk_order oid tid pid sid uuid price true])
           (referrals d)).

Definition same_pair (a b : Z) (r : referral_row) : bool :=
  (referrer_id r =? a) && (referred_id r =? b).

(** What [add_referral] returns: a row id, or a boolean. *)
Inductive add_result : Type :=
| RowId (id : Z)
| Flag (b : bool).

Definition truthy (r : add_result) : bool :=
  match r with
  | RowId id => negb (id =? 0)
  | Flag b => b
  end.

(** [add_referral(referrer_id, referred_id)]: [INSERT OR IGNORE]; an
    existing pair is left alone and reported as [True]; a missing user
    violates the foreign key and gives [False]. *)
Definition add_referral (a b : Z) (d : db) : add_result * db :=
  if existsb (same_pair a b) (referrals d) then (Flag true, d)
  else if negb (existsb (fun u => telegram_id u =? a) (users d))
          || negb (existsb (fun u => telegram_id u =? b) (users d))
  then (Flag false, d)
  else
    let rid := next_id (map referral_id (referrals d)) in
    (RowId rid,
     mk_db (users d) (servers d) (plans d) (orders d)
           (referrals d ++ [mk_referral rid a b 0])).

(** Modelled from the spec: [find_referral(referrer_id, referred_id)],
    which [register_referral] calls on its store and
    [Database/dbManager.py] does not define.  It follows the contract
    the spec gives every per-entity [find*]: the matching rows, or
    [None] when there are none. *)
Definition find_referral (a b : Z) (d : db) : option (list referral_row) :=
  rows_or_none (filter (same_pair a b) (referrals d)).


(** The number of rows of [referrals] for a pair. *)
Definition referral_rows (a b : Z) (d : db) : nat :=
  List.length (filter (same_pair a b) (referrals d)).

End Database.

(** ** Utils/coupons.py *)

Module Coupons.
Import PyNum.

(** A row of table [coupons], as the dictionary the store returns. *)
Record coupon : Type := mk_coupon {
  coupon_id : Z;
  code : string;
  discount_type : string;
  discount_value : Z;
  usage_limit : option Z;
  used_count : Z;
  expiry_date : option string;
  is_active : bool
}.

(** [apply_coupon_discount(original_amount_rials, coupon)].  The body of
    the [try]; [None] when it raises. *)
Definition apply_coupon_discount_body (original_amount_rials : Z) (c : coupon)
  : option Z :=
  let discount_type := discount_type c in
  let discount_value := discount_value c in
  let discounted_amount := original_amount_rials in
  if String.eqb discount_type "percentage" then
    match int_percent_of original_amount_rials (PyInt discount_value) with
    | Some discount_amount =>
        Some (Z.max 0 (original_amount_rials - discount_amount))
    | None => None
    end
  else if String.eqb discount_type "fixed" then
    let discount_amount := Z.min discount_value original_amount_rials in
    Some (original_amount_rials - discount_amount)
  else Some discounted_amount.

(** On any exception the original amount is returned (no discount). *)
Definition apply_coupon_discount (original_amount_rials : Z) (c : coupon) : Z :=
  match apply_coupon_discount_body original_amount_rials c with
  | Some discounted_amount => discounted_amount
  | None => original_amount_rials
  end.

(** A naive [datetime]: compared field by field, most significant
    first. *)
Record datetime : Type := mk_datetime {
  year : Z; month : Z; day : Z;
  hour : Z; minute : Z; second : Z; microsecond : Z
}.

Definition datetime_fields (t : datetime) : list Z :=
  [year t; month t; day t; hour t; minute t; second t; microsecond t].

Fixpoint lex_compare (xs ys : list Z) : comparison :=
  match xs, ys with
  | x :: xs', y :: ys' =>
      match x ?= y with
      | Eq => lex_compare xs' ys'
      | c => c
      end
  | [], [] => Eq
  | [], _ :: _ => Lt
  | _ :: _, [] => Gt
  end.

(** [t1 > t2] *)
Definition datetime_gt (t1 t2 : datetime) : bool :=
  match lex_compare (datetime_fields t1) (datetime_fields t2) with
  | Gt => true
  | _ => false
  end.

(** [t.replace(hour=23, minute=59, second=59)] *)
Definition end_of_day (t : datetime) : datetime :=
  mk_datetime (year t) (month t) (day t) 23 59 59 (microsecond t).

(** A row of table [coupon_usage]. *)
Record coupon_usage : Type := mk_coupon_usage {
  usage_id : Z;
  usage_coupon_id : Z;
  usage_user_id : Z
}.

(** The store handed to the coupon functions as [db_manager]: the two
    lookups [validate_coupon] performs, each returning the matching rows
    or [None]. *)
Record db_manager : Type := mk_db_manager {
  find_coupon : string -> option (list coupon);
  find_coupon_usage : Z -> Z -> option (list coupon_usage)
}.

(** What [validate_coupon] returns. *)
Record validation : Type := mk_validation {
  valid : bool;
  coupon_of : option coupon;
  error : option string
}.

Definition DATE_FORMAT : string := "%Y-%m-%d".
Definition DATETIME_FORMAT : string := "%Y-%m-%d %H:%M:%S".

Section Validate.

(** [datetime.strptime(text, format)]: [None] is its [ValueError]. *)
Variable strptime : string -> string -> option datetime.
(** [datetime.now()] *)
Variable now : datetime.
Variable db_manager_ : db_manager.

(** [find_coupon_by_code(code, db_manager)] *)
Definition find_coupon_by_code (code_ : string) : option coupon :=
  match find_coupon db_manager_ code_ with
  | Some (c :: _) => Some c
  | _ => None
  end.

(** Step 3 of [validate_coupon]: [true] when the function returns
    'Coupon has expired.'.  An empty or missing expiry skips the
    check; a text [strptime] rejects is logged and skipped. *)
Definition expiry_check (c : coupon) : bool :=
  match expiry_date c with
  | None => false
  | Some expiry_str =>
      if String.eqb expiry_str "" then false
      else
        let parsed :=
          if Nat.eqb (String.length expiry_str) 10
          then option_map end_of_day (strptime expiry_str DATE_FORMAT)
          else strptime expiry_str DATETIME_FORMAT in
        match parsed with
        | Some expiry_datetime => datetime_gt now expiry_datetime
        | None => false
        end
  end.

(** Step 4: the usage limit, when there is one. *)
Definition usage_check (c : coupon) : bool :=
  match usage_limit c with
  | Some limit => used_count c >=? limit
  | None => false
  end.

(** Step 5: a usage record of this user, when a user is given. *)
Definition user_check (c : coupon) (user_id : option Z) : bool :=
  match user_id with
  | Some uid =>
      match find_coupon_usage db_manager_ (coupon_id c) uid with
      | Some (_ :: _) => true
      | _ => false
      end
  | None => false
  end.

(** [validate_coupon(code, user_id, db_manager)] *)
Definition validate_coupon (code_ : string) (user_id : option Z) : validation :=
  match find_coupon_by_code code_ with
  | None => mk_validation false None (Some "Coupon not found.")
  | Some c =>
      if negb (is_active c) then
        mk_validation false (Some c) (Some "Coupon is not active.")
      else if expiry_check c then
        mk_validation false (Some c) (Some "Coupon has expired.")
      else if usage_check c then
        mk_validation false (Some c) (Some "Coupon usage limit exceeded.")
      else if user_check c user_id then
        mk_validation false (Some c) (Some "You have already used this coupon.")
      else mk_validation true (Some c) None
  end.

End Validate.

(** The same coupon with no expiry date, and the store that serves
    every coupon that way. *)
Definition clear_expiry (c : coupon) : coupon :=
  mk_coupon (coupon_id c) (code c) (discount_type c) (discount_value c)
            (usage_limit c) (used_count c) None (is_active c).

Definition forget_expiry (m : db_manager) : db_manager :=
  mk_db_manager
    (fun code_ => option_map (map clear_expiry) (find_coupon m code_))
    (find_coupon_usage m).

(** A strict reader of the two layouts, used for the examples: four
    digits, two digits, two digits (and two digits for each of hour,
    minute, second), with the ranges of the calendar.  Whatever it
    accepts [datetime.strptime] accepts with the same value. *)
Definition digit_of (a : ascii) : option Z :=
  let n := Z.of_nat (nat_of_ascii a) in
  if (48 <=? n) && (n <=? 57) then Some (n - 48) else None.

Fixpoint number_of (cs : list ascii) (acc : Z) : option Z :=
  match cs with
  | [] => Some acc
  | a :: cs' =>
      match digit_of a with
      | Some d => number_of cs' (10 * acc + d)
      | None => None
      end
  end.

Definition days_in_month (y m : Z) : Z :=
  if (m =? 2) then
    if ((y mod 4 =? 0) && negb (y mod 100 =? 0)) || (y mod 400 =? 0) then 29 else 28
  else if (m =? 4) || (m =? 6) || (m =? 9) || (m =? 11) then 30 else 31.

Definition read_date (cs : list ascii) : option (Z * Z * Z) :=
  match cs with
  | [y1; y2; y3; y4; "-"%char; m1; m2; "-"%char; d1; d2] =>
      match number_of [y1; y2; y3; y4] 0, number_of [m1; m2] 0, number_of [d1; d2] 0 with
      | Some y, Some m, Some d =>
          if (1 <=? y) && (1 <=? m) && (m <=? 12) && (1 <=? d) && (d <=? days_in_month y m)
          then Some (y, m, d) else None
      | _, _, _ => None
      end
  | _ => None
  end.

Definition read_time (cs : list ascii) : option (Z * Z * Z) :=
  match cs with
  | [h1; h2; ":"%char; m1; m2; ":"%char; s1; s2] =>
      match number_of [h1; h2] 0, number_of [m1; m2] 0, number_of [s1; s2] 0 with
      | Some h, Some m, Some s_ =>
          if (h <=? 23) && (m <=? 59) && (s_ <=? 59) then Some (h, m, s_) else None
      | _, _, _ => None
      end
  | _ => None
  end.

Definition strict_strptime (text format : string) : option datetime :=
  let cs := list_ascii_of_string text in
  if String.eqb format DATE_FORMAT then
    match read_date cs with
    | Some (y, m, d) => Some (mk_datetime y m d 0 0 0 0)
    | None => None
    end
  else if String.eqb format DATETIME_FORMAT then
    match read_date (firstn 10 cs), nth_error cs 10, read_time (skipn 11 cs) with
    | Some (y, m, d), Some " "%char, Some (h, mi, s_) => Some (mk_datetime y m d h mi s_ 0)
    | _, _, _ => None
    end
  else None.

End Coupons.

(** ** Utils/affiliates.py: commission *)

Module Affiliates.
Import PyNum.

Definition DEFAULT_COMMISSION_RATE_PERCENTAGE : pynum := PyInt 10.

(** [0 <= rate <= 100] *)
Definition rate_in_range (rate : pynum) : bool :=
  le (PyInt 0) rate && le rate (PyInt 100).

(** [calculate_commission(order_amount_rials, commission_rate_percentage)];
    the rate is [None] when the argument is omitted.  On any exception
    the function returns 0. *)
Definition calculate_commission (order_amount_rials : Z)
    (commission_rate_percentage : option pynum) : Z :=
  let rate :=
    match commission_rate_percentage with
    | None => DEFAULT_COMMISSION_RATE_PERCENTAGE
    | Some r => r
    end in
  let rate :=
    if negb (rate_in_range rate) then DEFAULT_COMMISSION_RATE_PERCENTAGE
    else rate in
  match int_percent_of order_amount_rials rate with
  | Some commission_rials => commission_rials
  | None => 0
  end.

Import Database.

(** The calls [register_referral] makes on its store, in order. *)
Inductive db_call : Type :=
| FindUser (telegram_id : Z)
| FindReferral (referrer_id referred_id : Z)
| AddReferral (referrer_id referred_id : Z).

(** [register_referral(referrer_id, referred_id, db_manager)]: the
    result, the store afterwards and the calls made on it. *)
Definition register_referral (referrer_id referred_id : Z) (d : db)
  : bool * db * list db_call :=
  if referrer_id =? referred_id then (false, d, [])
  else
    let referrer := find_user referrer_id d in
    let referred := find_user referred_id d in
    let calls := [FindUser referrer_id; FindUser referred_id] in
    match referrer with
    | None => (false, d, calls)
    | Some _ =>
        match referred with
        | None => (false, d, calls)
        | Some _ =>
            let calls := calls ++ [FindReferral referrer_id referred_id] in
            match find_referral referrer_id referred_id d with
            | Some _ => (true, d, calls)
            | None =>
                let '(referral_status, d') := add_referral referrer_id referred_id d in
                (truthy referral_status, d',
                 calls ++ [AddReferral referrer_id referred_id])
            end
        end
    end.

End Affiliates.

(** ** Utils/utils.py: server selection *)

Module Utils.
Import PyNum Database.

(** [0.01] *)
Definition one_hundredth : float := SFdiv prec emax
  (binary_normalize prec emax 1 0 false) (binary_normalize prec emax 100 0 false).

(** Truth value of [server_data.get('status', True)]. *)
Definition is_active (s : server_row) : bool :=
  match status s with
  | Missing => true
  | Null => false
  | Value z => negb (z =? 0)
  end.

(** [x == y] for a value that may be [None]. *)
Definition field_eq (x : field pynum) (y : pynum) : bool :=
  match x with
  | Value v => PyNum.eq v y
  | _ => false
  end.

(** [user_count / user_limit] *)
Definition truediv (user_count : Z) (user_limit : pynum) : option float :=
  match user_limit with
  | PyInt l => int_truediv user_count l
  | PyFloat l =>
      match of_int user_count with
      | Some c => fdiv c l
      | None => None
      end
  end.

(** The score of one active server; [None] when computing it raises. *)
Definition score_of (user_count : Z) (s : server_row) : option pynum :=
  let user_limit :=
    match user_limit s with
    | Missing => Value (PyFloat pos_inf)
    | x => x
    end in
  if field_eq user_limit (PyInt 0) || field_eq user_limit (PyFloat pos_inf)
  then Some (PyInt user_count)
  else
    match user_limit with
    | Value l =>
        let usage_ratio :=
          if gt l (PyInt 0) then option_map PyFloat (truediv user_count l)
          else Some (PyInt 1) in
        match usage_ratio, int_mul_float user_count one_hundredth with
        | Some r, Some bias => add r (PyFloat bias)
        | _, _ => None
        end
    | _ => None   (* [None > 0] is a TypeError *)
    end.

Section Select.

(** [USERS_DB.find_order(server_id=...)], which the function uses for
    the number of users of a server (the source marks it a
    simplification): the outer [None] is a raised exception, the
    inner one the [None] of an empty result. *)
Variable find_order : Z -> option (option (list order_row)).

(** The loop over the servers, carrying [best_server] and
    [best_score]; [None] when an iteration raises. *)
Fixpoint select_loop (servers_ : list server_row)
    (best_server : option server_row) (best_score : pynum)
  : option (option server_row) :=
  match servers_ with
  | [] => Some best_server
  | server_data :: rest =>
      match find_order (server_id server_data) with
      | None => None
      | Some users_on_server =>
          let user_count :=
            match users_on_server with
            | Some (o :: os) => Z.of_nat (List.length (o :: os))
            | _ => 0
            end in
          if negb (is_active server_data) then select_loop rest best_server best_score
          else
            match score_of user_count server_data with
            | None => None
            | Some score =>
                if lt score best_score
                then select_loop rest (Some server_data) score
                else select_loop rest best_server best_score
            end
      end
  end.

(** [select_best_server_for_user()] on the store [d]: any exception
    is caught and gives [None]. *)
Definition select_best_server_for_user (d : db) : option server_row :=
  match select_servers d with
  | None => None
  | Some servers_ =>
      match select_loop servers_ None (PyFloat pos_inf) with
      | Some best_server => best_server
      | None => None
      end
  end.

End Select.

(** [find_order] as [Database/dbManager.py] defines it,
    [find_order(self, id=None, telegram_id=None)]: called with the
    keyword [server_id] it raises a [TypeError]. *)
Definition USERS_DB_find_order (sid : Z) : option (option (list order_row)) := None.

(** The lookup the function assumes: the orders bound to a server. *)
Definition orders_of_server (d : db) (sid : Z) : option (option (list order_row)) :=
  Some (rows_or_none (filter (fun o => order_server_id o =? sid) (orders d))).

End Utils.

(** ** UserBot/bot.py: the purchase and renewal branches of [callback_query]

    Identifiers carried in callback data are modelled by the integers they
    denote, an absent or empty value by [None].  The Telegram transport is
    taken not to raise.  The replies of the panel (Utils/api.py, which
    turns every failure into [None] or [False]) are inputs. *)

Module UserBot.
Import PyNum Database.

(** [settings]: the merged configuration map.  The renewal branches read
    it without assigning it themselves; it is an input of the branch. *)
Record settings : Type := mk_settings {
  renewal_method : Z;
  advanced_renewal_days : Z;
  advanced_renewal_usage : Z
}.

























End UserBot.

(** ** The coupon state machine, as the specification words it *)

Module CouponSpec.
Import Coupons.

(** The terminal states other than VALID, in priority order. *)
Inductive reason : Type :=
| NOT_FOUND
| INACTIVE
| EXPIRED
| EXHAUSTED
| ALREADY_USED_BY_USER.

Definition priority : list reason :=
  [NOT_FOUND; INACTIVE; EXPIRED; EXHAUSTED; ALREADY_USED_BY_USER].

Definition message_of (r : reason) : string :=
  match r with
  | NOT_FOUND => "Coupon not found."
  | INACTIVE => "Coupon is not active."
  | EXPIRED => "Coupon has expired."
  | EXHAUSTED => "Coupon usage limit exceeded."
  | ALREADY_USED_BY_USER => "You have already used this coupon."
  end.

Section Conditions.
Variable strptime : string -> string -> option datetime.
Variable now : datetime.
Variable store : db_manager.
Variable code_ : string.
Variable user_id : option Z.

(** The coupon stored under the code, if any. *)
Definition stored : option coupon :=
  match find_coupon store code_ with
  | Some (c :: _) => Some c
  | _ => None
  end.

(** The moment a stored expiry text runs out: the end of the day for
    a date, the moment itself for a date and time. *)
Definition expiry_moment (text : string) : option datetime :=
  if Nat.eqb (String.length text) 10
  then option_map end_of_day (strptime text DATE_FORMAT)
  else strptime text DATETIME_FORMAT.

(** Whether a failure condition applies to the code. *)
Definition applies (r : reason) : bool :=
  match r, stored with
  | NOT_FOUND, None => true
  | NOT_FOUND, Some _ => false
  | _, None => false
  | INACTIVE, Some c => negb (is_active c)
  | EXPIRED, Some c =>
      match expiry_date c with
      | Some text =>
          negb (String.eqb text "")
          && match expiry_moment text with
             | Some t => datetime_gt now t
             | None => false
             end
      | None => false
      end
  | EXHAUSTED, Some c =>
      match usage_limit c with
      | Some limit => limit <=? used_count c
      | None => false
      end
  | ALREADY_USED_BY_USER, Some c =>
      match user_id with
      | Some uid =>
          match find_coupon_usage store (coupon_id c) uid with
          | Some (_ :: _) => true
          | _ => false
          end
      | None => false
      end
  end.

(** The first condition, in priority order, that applies. *)
Definition first_applicable : option reason := find applies priority.

End Conditions.

End CouponSpec.

(** ** version.py and update.py *)

Module Version.

(** [text.split(sep)] on the characters of a text: at least one part,
    empty parts kept. *)
Fixpoint split_chars (sep : ascii) (cs : list ascii) : list (list ascii) :=
  match cs with
  | [] => [[]]
  | c :: rest =>
      if Ascii.eqb c sep then [] :: split_chars sep rest
      else
        match split_chars sep rest with
        | part :: parts => (c :: part) :: parts
        | [] => [[c]]
        end
  end.

Definition split (sep : ascii) (text : string) : list string :=
  map string_of_list_ascii (split_chars sep (list_ascii_of_string text)).

(** [[f(x) for x in xs]] where [f] may raise. *)
Fixpoint map_raising {A B : Type} (f : A -> option B) (xs : list A) : option (list B) :=
  match xs with
  | [] => Some []
  | x :: rest =>
      match f x with
      | Some y =>
          match map_raising f rest with
          | Some ys => Some (y :: ys)
          | None => None
          end
      | None => None
      end
  end.

(** [l.extend([0] * (n - len(l)))] *)
Definition pad (l : list Z) (n : nat) : list Z := l ++ repeat 0 (n - List.length l).

(** The loop over [zip(v1_parts, v2_parts)]. *)
Fixpoint first_difference (pairs : list (Z * Z)) : bool :=
  match pairs with
  | [] => false
  | (part1, part2) :: rest =>
      if part1 <? part2 then true
      else if part1 >? part2 then false
      else first_difference rest
  end.

(** The comparison of [is_version_less] once both texts are read. *)
Definition parts_less (v1_parts v2_parts : list Z) : bool :=
  let max_length := Nat.max (List.length v1_parts) (List.length v2_parts) in
  first_difference (combine (pad v1_parts max_length) (pad v2_parts max_length)).

(** Python's ordering of tuples of ints: the first difference decides,
    and a proper prefix is smaller. *)
Fixpoint tuple_compare (t1 t2 : list Z) : comparison :=
  match t1, t2 with
  | [], [] => Eq
  | [], _ :: _ => Lt
  | _ :: _, [] => Gt
  | x :: t1', y :: t2' =>
      match x ?= y with
      | Eq => tuple_compare t1' t2'
      | c => c
      end
  end.

Section Reading.

(** [int(text)]: [None] is its [ValueError]. *)
Variable py_int : string -> option Z.

(** [[int(part) for part in version.split('.')]] *)
Definition version_parts (version : string) : option (list Z) :=
  map_raising py_int (split "."%char version).

(** [is_version_less(version1, version2)]: an unreadable version makes
    the answer [False]. *)
Definition is_version_less (version1 version2 : string) : bool :=
  match version_parts version1 with
  | Some v1_parts =>
      match version_parts version2 with
      | Some v2_parts => parts_less v1_parts v2_parts
      | None => false
      end
  | None => false
  end.

(** [get_version_tuple(version_str)] *)
Definition get_version_tuple (version_str : string) : list Z :=
  match version_parts version_str with
  | Some parts => parts
  | None => [0; 0; 0]
  end.

(** [compare_versions(version1, version2)] *)
Definition compare_versions (version1 version2 : string) : Z :=
  match tuple_compare (get_version_tuple version1) (get_version_tuple version2) with
  | Lt => -1
  | Gt => 1
  | Eq => 0
  end.





End Reading.

(** A reader of plain decimal digits, for the examples. *)
Definition digits_int (text : string) : option Z :=
  match list_ascii_of_string text with
  | [] => None
  | cs => Coupons.number_of cs 0
  end.

End Version.


(** ** Utils/utils.py: currency, settings, statistics and the cache *)

Module Money.

(** [rial_to_toman(rial)] for [None] or an int: [int(rial) // 10]. *)
Definition rial_to_toman (rial : option Z) : Z :=
  match rial with
  | None => 0
  | Some r => r / 10
  end.

(** [toman_to_rial(toman)] for [None] or an int: [int(toman) * 10]. *)
Definition toman_to_rial (toman : option Z) : Z :=
  match toman with
  | None => 0
  | Some t => t * 10
  end.

End Money.

(** A Python dict with text keys, read through [lookup]: the newest
    binding of a key comes first and hides the older ones. *)
Module PyDict.

Definition dict (V : Type) : Type := list (string * V).

Fixpoint lookup {V : Type} (k : string) (d : dict V) : option V :=
  match d with
  | [] => None
  | (k', v) :: rest => if String.eqb k' k then Some v else lookup k rest
  end.

(** [d[k] = v] *)
Definition set {V : Type} (k : string) (v : V) (d : dict V) : dict V := (k, v) :: d.

(** [del d[k]] *)
Definition del {V : Type} (k : string) (d : dict V) : dict V :=
  filter (fun kv => negb (String.eqb (fst kv) k)) d.

End PyDict.

Module Settings.
Import PyDict.

(** A value of a configuration table. *)
Inductive setting : Type :=
| IntValue (z : Z)
| TextValue (s : string)
| NoValue.

(** The three tables [bool_config], [int_config], [str_config]: rows of
    [key] and [value] (booleans are stored as 0 and 1). *)
Record config_tables : Type := mk_config {
  bool_config : list (string * setting);
  int_config : list (string * setting);
  str_config : list (string * setting)
}.

(** [for config in rows: settings[config['key']] = config['value']] *)
Definition absorb (rows : list (string * setting)) (settings : dict setting)
  : dict setting :=
  fold_left (fun s row => set (fst row) (snd row) s) rows settings.

(** [all_configs_settings()] *)
Definition all_configs_settings (c : config_tables) : dict setting :=
  absorb (str_config c) (absorb (int_config c) (absorb (bool_config c) [])).

(** [edit_int_config(key, value)]: the row is updated, or inserted when
    there is none. *)
Definition edit_int_config (key : string) (value : Z) (c : config_tables)
  : bool * config_tables :=
  if existsb (fun row => String.eqb (fst row) key) (int_config c) then
    (true,
     mk_config (bool_config c)
               (map (fun row => if String.eqb (fst row) key
                                then (fst row, IntValue value) else row)
                    (int_config c))
               (str_config c))
  else
    (true,
     mk_config (bool_config c) (int_config c ++ [(key, IntValue value)]) (str_config c)).

End Settings.

Module Statistics.
Import Database.

(** [select_orders()] *)
Definition select_orders (d : db) : option (list order_row) := rows_or_none (orders d).

(** [get_order_statistics()]: [(total_orders, total_revenue)]. *)
Definition get_order_statistics (d : db) : Z * Z :=
  match select_orders d with
  | Some orders_ =>
      (Z.of_nat (List.length orders_),
       fold_left (fun total_revenue order => total_revenue + order_price order) orders_ 0)
  | None => (0, 0)
  end.

End Statistics.

Module Cache.
Import PyNum PyDict.

Definition CACHE_EXPIRY_SECONDS : pynum := PyInt 300.

Section Entries.

(** The cached values. *)
Variable A : Type.

(** [_simple_cache]: each key holds the data and the time it was set. *)
Definition cache : Type := dict (A * float).

(** [get_cached_data(key)] at clock reading [now]: the answer and the
    cache afterwards. *)
Definition get_cached_data (key : string) (now : float) (c : cache)
  : option A * cache :=
  match lookup key c with
  | Some (data, timestamp) =>
      if lt (PyFloat (fsub now timestamp)) CACHE_EXPIRY_SECONDS
      then (Some data, c)
      else (None, del key c)
  | None => (None, c)
  end.

(** [set_cached_data(key, data)] at clock reading [now]. *)
Definition set_cached_data (key : string) (data : A) (now : float) (c : cache) : cache :=
  set key (data, now) c.

(** [clear_cache(key)]: with an absent or empty key the whole cache is
    cleared. *)
Definition clear_cache (key : option string) (c : cache) : cache :=
  match key with
  | Some k => if String.eqb k "" then [] else del k c
  | None => []
  end.

End Entries.

End Cache.


(** ** Utils/affiliates.py: validity of a referral and the commission credit *)

Module Commission.
Import Database.




End Commission.


(** ** Database/dbManager.py: the coupon tables *)

Module CouponTables.
Import Database Coupons.

(** The store with its tables [coupons] and [coupon_usage]. *)
Record coupon_db : Type := mk_coupon_db {
  base : db;
  coupons : list coupon;
  usages : list coupon_usage
}.

(** [add_coupon(code, discount_type, discount_value, usage_limit,
    expiry_date, is_active)]: the new row id, or [None] for the [False]
    returned when the code is already taken ([code UNIQUE]). *)
Definition add_coupon (code_ dtype : string) (value : Z) (limit : option Z)
    (expiry : option string) (active : bool) (s : coupon_db) : option Z * coupon_db :=
  if existsb (fun c => String.eqb (code c) code_) (coupons s) then (None, s)
  else
    let cid := next_id (map coupon_id (coupons s)) in
    (Some cid,
     mk_coupon_db (base s)
       (coupons s ++ [mk_coupon cid code_ dtype value limit 0 expiry active])
       (usages s)).

(** [find_coupon_by_code(code)]: the first matching row. *)
Definition find_coupon_by_code (code_ : string) (s : coupon_db) : option coupon :=
  find (fun c => String.eqb (code c) code_) (coupons s).

Definition count_use (cid : Z) (c : coupon) : coupon :=
  if coupon_id c =? cid
  then mk_coupon (coupon_id c) (code c) (discount_type c) (discount_value c)
                 (usage_limit c) (used_count c + 1) (expiry_date c) (is_active c)
  else c.

(** [use_coupon(coupon_id, user_id)]: the usage row is inserted (both
    foreign keys must exist), then [used_count] is raised by one. *)
Definition use_coupon (cid uid : Z) (s : coupon_db) : bool * coupon_db :=
  if negb (existsb (fun c => coupon_id c =? cid) (coupons s))
     || negb (existsb (fun u => telegram_id u =? uid) (users (base s)))
  then (false, s)
  else
    (true,
     mk_coupon_db (base s)
       (map (count_use cid) (coupons s))
       (usages s ++ [mk_coupon_usage (next_id (map usage_id (usages s))) cid uid])).

(** [is_coupon_used_by_user(coupon_id, user_id)] *)
Definition is_coupon_used_by_user (cid uid : Z) (s : coupon_db) : bool :=
  existsb (fun r => (usage_coupon_id r =? cid) && (usage_user_id r =? uid)) (usages s).

(** The [used_count] stored for a coupon id. *)
Definition used_count_of (cid : Z) (s : coupon_db) : option Z :=
  option_map used_count (find (fun c => coupon_id c =? cid) (coupons s)).

End CouponTables.


(** ** Concrete stores and requests used in the examples *)

Module Examples.
Import PyNum Database Coupons UserBot.

(** [float(z)] for a small int. *)
Definition float_of (z : Z) : float := binary_normalize prec emax z 0 false.

(** A store with one active server whose user limit was never set
    ([add_server] stores NULL by default). *)
Definition server_without_limit : server_row :=
  mk_server 1 "Server 1" "https://panel.example" Null (Value 1).

Definition store_without_limit : db :=
  mk_db [] [server_without_limit] [] [] [].

(** Two active servers with the same limit, five orders on the first
    and three on the second. *)
Definition server_a : server_row :=
  mk_server 1 "A" "https://a.example" (Value (PyInt 100)) (Value 1).
Definition server_b : server_row :=
  mk_server 2 "B" "https://b.example" (Value (PyInt 100)) (Value 1).

Definition order_on (oid sid : Z) (uuid : string) : order_row :=
  mk_order oid 100 7 sid uuid 30000 true.

Definition store_two_servers : db :=
  mk_db [] [server_a; server_b] []
        [order_on 1 1 "u1"; order_on 2 1 "u2"; order_on 3 1 "u3";
         order_on 4 1 "u4"; order_on 5 1 "u5";
         order_on 6 2 "u6"; order_on 7 2 "u7"; order_on 8 2 "u8"]
        [].

(** A plan of 30 days and 10 GB. *)
Definition plan_30_10 : plan_row :=
  mk_plan 7 "Monthly" (PyFloat (float_of 10)) 30 30000 1 true.

Definition alice : user_row := mk_user 100 "Alice" 50000 false.
Definition bob : user_row := mk_user 200 "Bob" 0 false.

Definition shop : db := mk_db [alice; bob] [server_a] [plan_30_10] [] [].






(** A coupon whose expiry text is in neither layout. *)
Definition odd_coupon : coupon :=
  mk_coupon 5 "ODD" "fixed" 1000 None 0 (Some "31/12/2020") true.

(** A coupon that is both expired and used up. *)
Definition stale_coupon : coupon :=
  mk_coupon 6 "STALE" "fixed" 1000 (Some 1) 1 (Some "2020-01-01") true.

Definition coupon_store : db_manager :=
  mk_db_manager
    (fun code_ =>
       if String.eqb code_ "ODD" then Some [odd_coupon]
       else if String.eqb code_ "STALE" then Some [stale_coupon]
       else None)
    (fun _ _ => None).

Definition a_day_in_2024 : datetime := mk_datetime 2024 6 15 12 0 0 0.

End Examples.

(** ** Further concrete inputs *)

Module MoreExamples.
Import PyNum Database Coupons UserBot Examples.

(** Three small configuration tables; [channel_id] is both a string and
    an integer key. *)
Definition some_tables : Settings.config_tables :=
  Settings.mk_config
    [("test_subscription", Settings.IntValue 1)]
    [("test_sub_days", Settings.IntValue 1); ("channel_id", Settings.IntValue 7)]
    [("channel_id", Settings.TextValue "@news")].

(** A cache with one entry set at clock reading 1000. *)
Definition one_entry : Cache.cache string :=
  Cache.set_cached_data string "plans" "cached plans" (float_of 1000) [].

(** A coupon that passes every check, and a store that serves it. *)
Definition good_coupon : coupon :=
  mk_coupon 8 "GOOD" "percentage" 20 (Some 5) 2 (Some "2024-06-15") true.

Definition good_store : db_manager :=
  mk_db_manager
    (fun code_ => if String.eqb code_ "GOOD" then Some [good_coupon] else None)
    (fun _ _ => None).

(** The shop after one order with uuid [taken] was stored. *)
Definition shop_with_order : db :=
  mk_db [alice; bob] [server_a] [plan_30_10] [order_on 1 1 "taken"] [].






End MoreExamples.

(** * Properties *)

(** ** Signs of binary64 results *)

Section FloatSigns.
Import PyNum.

Lemma binary_round_aux_sign (m e : Z) (l : location) :
  sign_of (binary_round_aux prec emax false m e l) = false.
Proof.
  unfold binary_round_aux.
  destruct (shr_fexp prec emax m e l) as [mrs' e'].
  destruct (shr_fexp prec emax _ e' loc_Exact) as [mrs'' e''].
  destruct (shr_m mrs''); [reflexivity | | reflexivity].
  destruct (Z.leb e'' (Z.sub emax prec)); reflexivity.
Qed.

Lemma of_int_sign (z : Z) (f : float) :
  0 <= z -> of_int z = Some f -> sign_of f = false.
Proof.
  intros Hz. unfold of_int, binary_normalize.
  destruct z as [|p|p]; [| | lia].
  - intros H; inversion H; reflexivity.
  - unfold binary_round.
    destruct (shl_align _ _ _) as [mz ez].
    pose proof (binary_round_aux_sign (Zpos mz) ez loc_Exact) as Hs.
    destruct (binary_round_aux prec emax false (Zpos mz) ez loc_Exact);
      intros H; inversion H; subst; exact Hs.
Qed.

Lemma SFmul_sign (x y : float) :
  sign_of x = false -> sign_of y = false -> sign_of (fmul x y) = false.
Proof.
  destruct x as [sx|sx| |sx mx ex], y as [sy|sy| |sy my ey];
    simpl; intros Hx Hy; subst; try reflexivity.
  apply binary_round_aux_sign.
Qed.

Lemma fdiv_sign (x y r : float) :
  sign_of x = false -> sign_of y = false -> fdiv x y = Some r ->
  sign_of r = false.
Proof.
  unfold fdiv. destruct (is_zero y); [discriminate|].
  intros Hx Hy H; inversion H; subst; clear H.
  destruct x as [sx|sx| |sx mx ex], y as [sy|sy| |sy my ey];
    simpl in *; subst; try reflexivity.
  destruct (SFdiv_core_binary prec emax (Zpos mx) ex (Zpos my) ey) as [[mz ez] lz].
  apply binary_round_aux_sign.
Qed.

Lemma int_of_float_nonneg (x : float) (v : Z) :
  sign_of x = false -> int_of_float x = Some v -> 0 <= v.
Proof.
  destruct x as [s|s| |s m e]; simpl; intros Hs H; try discriminate.
  - inversion H; lia.
  - subst s. inversion H; subst; clear H.
    destruct e as [|p|p].
    + rewrite Z.shiftl_0_r; lia.
    + apply Z.shiftl_nonneg; lia.
    + apply Z.shiftr_nonneg; lia.
Qed.

(** [int(a * (x / 100.0))] is not negative when [a] and [x] are not. *)
Lemma int_percent_of_nonneg (a x v : Z) :
  0 <= a -> 0 <= x -> int_percent_of a (PyInt x) = Some v -> 0 <= v.
Proof.
  intros Ha Hx. unfold int_percent_of, div_100, int_mul_float, to_float.
  destruct (of_int x) as [fx|] eqn:Ex; [|discriminate].
  destruct (of_int 100) as [fh|] eqn:Eh; [|discriminate].
  destruct (fdiv fx fh) as [r|] eqn:Er; [|discriminate].
  destruct (of_int a) as [fa|] eqn:Ea; [|discriminate].
  simpl. apply int_of_float_nonneg.
  apply SFmul_sign.
  - exact (of_int_sign a fa Ha Ea).
  - apply (fdiv_sign fx fh r); [| |exact Er].
    + exact (of_int_sign x fx Hx Ex).
    + apply (of_int_sign 100 fh); [lia|exact Eh].
Qed.

End FloatSigns.

(** ** Coupon discount *)

Section CouponDiscount.
Import PyNum Coupons.

Lemma percentage_bounds (amount : Z) (c : coupon) :
  0 <= amount -> discount_type c = "percentage" -> 0 <= discount_value c ->
  0 <= apply_coupon_discount amount c <= amount.
Proof.
  intros Ha Ht Hv. unfold apply_coupon_discount, apply_coupon_discount_body.
  rewrite Ht. simpl String.eqb.
  destruct (int_percent_of amount (PyInt (discount_value c))) as [d|] eqn:E.
  - pose proof (int_percent_of_nonneg _ _ _ Ha Hv E). cbn. lia.
  - cbn. lia.
Qed.

Lemma fixed_bounds (amount : Z) (c : coupon) :
  0 <= amount -> discount_type c = "fixed" -> 0 <= discount_value c ->
  0 <= apply_coupon_discount amount c <= amount.
Proof.
  intros Ha Ht Hv. unfold apply_coupon_discount, apply_coupon_discount_body.
  rewrite Ht. cbn. lia.
Qed.

(** C4. For a non-negative amount and a coupon that is a percentage in
    [0,100] or a non-negative fixed amount, [apply_coupon_discount]
    returns an integer between 0 and the amount; 30% off 100,000 is
    70,000 and a fixed 50,000 off 30,000 is 0. *)
Theorem apply_coupon_discount_in_range :
  (forall (amount : Z) (c : coupon),
      0 <= amount ->
      (discount_type c = "percentage" /\ 0 <= discount_value c <= 100)
      \/ (discount_type c = "fixed" /\ 0 <= discount_value c) ->
      0 <= apply_coupon_discount amount c <= amount)
  /\ apply_coupon_discount 100000
       (mk_coupon 1 "SPRING" "percentage" 30 None 0 None true) = 70000
  /\ apply_coupon_discount 30000
       (mk_coupon 2 "GIFT" "fixed" 50000 None 0 None true) = 0.
Proof.
  split; [|split; vm_compute; reflexivity].
  intros amount c Ha [[Ht Hv]|[Ht Hv]].
  - apply percentage_bounds; [assumption | assumption | lia].
  - apply fixed_bounds; assumption.
Qed.

Lemma apply_coupon_discount_in_range_witness :
  0 <= apply_coupon_discount 12345
         (mk_coupon 3 "HALF" "percentage" 50 None 0 None true) <= 12345.
Proof.
  apply (proj1 apply_coupon_discount_in_range).
  - lia.
  - left. split; [reflexivity | cbn; lia].
Defined.

End CouponDiscount.

(** ** Commission *)

Section Commission.
Import PyNum Affiliates.

(** An omitted rate, or one outside [0,100], gives the commission of
    the default rate. *)
Lemma calculate_commission_fallback (amount : Z) (rate : option pynum) :
  match rate with
  | None => True
  | Some r => rate_in_range r = false
  end ->
  calculate_commission amount rate
  = calculate_commission amount (Some DEFAULT_COMMISSION_RATE_PERCENTAGE).
Proof.
  unfold calculate_commission. destruct rate as [r|]; intros H.
  - rewrite H. reflexivity.
  - reflexivity.
Qed.

Lemma calculate_commission_examples :
  calculate_commission 100000 (Some (PyInt 10)) = 10000
  /\ calculate_commission 100000 (Some (PyInt 150)) = 10000
  /\ calculate_commission 100000 None = 10000.
Proof. repeat split; vm_compute; reflexivity. Qed.

(** C7. [calculate_commission(100, 29)]: the rate is in range and
    [floor(100 * 29 / 100)] is 29, but the function returns 28, the
    truncation of the binary64 product [100 * (29 / 100.0)]. *)
Theorem calculate_commission_not_floor :
  rate_in_range (PyInt 29) = true
  /\ calculate_commission 100 (Some (PyInt 29)) = 28
  /\ 100 * 29 / 100 = 29.
Proof. repeat split; vm_compute; reflexivity. Qed.

End Commission.

(** ** Coupon validation *)

Section CouponValidation.
Import Coupons CouponSpec.

Variable strptime : string -> string -> option datetime.
Variable now : datetime.
Variable store : db_manager.

Lemma find_coupon_by_code_stored (code_ : string) :
  find_coupon_by_code store code_ = stored store code_.
Proof. reflexivity. Qed.

Lemma expiry_check_applies (code_ : string) (uid : option Z) (c : coupon) :
  stored store code_ = Some c ->
  applies strptime now store code_ uid EXPIRED = expiry_check strptime now c.
Proof.
  intros Hc. unfold applies, expiry_check, expiry_moment. rewrite Hc.
  destruct (expiry_date c) as [text|]; [|reflexivity].
  destruct (String.eqb text ""); reflexivity.
Qed.

Lemma usage_check_applies (code_ : string) (uid : option Z) (c : coupon) :
  stored store code_ = Some c ->
  applies strptime now store code_ uid EXHAUSTED = usage_check c.
Proof.
  intros Hc. unfold applies, usage_check. rewrite Hc.
  destruct (usage_limit c) as [limit|]; [|reflexivity].
  symmetry. apply Z.geb_leb.
Qed.

Lemma user_check_applies (code_ : string) (uid : option Z) (c : coupon) :
  stored store code_ = Some c ->
  applies strptime now store code_ uid ALREADY_USED_BY_USER = user_check store c uid.
Proof. intros Hc. unfold applies, user_check. rewrite Hc. reflexivity. Qed.

Lemma not_found_applies (code_ : string) (uid : option Z) :
  applies strptime now store code_ uid NOT_FOUND
  = match stored store code_ with None => true | Some _ => false end.
Proof. unfold applies. destruct (stored store code_); reflexivity. Qed.

Lemma inactive_applies (code_ : string) (uid : option Z) (c : coupon) :
  stored store code_ = Some c ->
  applies strptime now store code_ uid INACTIVE = negb (is_active c).
Proof. intros Hc. unfold applies. rewrite Hc. reflexivity. Qed.

(** C5. [validate_coupon] reports the first failure condition, in the
    order not-found, inactive, expired, exhausted, already-used, that
    applies to the code, and reports the coupon valid when none does. *)
Theorem validate_coupon_first_reason (code_ : string) (uid : option Z) :
  let result := validate_coupon strptime now store code_ uid in
  let first := first_applicable strptime now store code_ uid in
  error result = option_map message_of first
  /\ valid result = match first with None => true | Some _ => false end.
Proof.
  cbv zeta. unfold validate_coupon, first_applicable, priority.
  rewrite find_coupon_by_code_stored.
  destruct (stored store code_) as [c|] eqn:Hc.
  - cbn [find].
    rewrite (expiry_check_applies code_ uid c Hc).
    rewrite (usage_check_applies code_ uid c Hc).
    rewrite (user_check_applies code_ uid c Hc).
    rewrite not_found_applies, (inactive_applies code_ uid c Hc), Hc.
    destruct (is_active c); cbn [negb];
      [|split; reflexivity].
    destruct (expiry_check strptime now c); [split; reflexivity|].
    destruct (usage_check c); [split; reflexivity|].
    destruct (user_check store c uid); split; reflexivity.
  - cbn [find]. rewrite not_found_applies, Hc. split; reflexivity.
Qed.

(** C10. A stored expiry text that is neither a 10-character date nor
    a date and time is skipped: the coupon is never reported expired,
    and the verdict is the one of the same coupon without expiry. *)
Theorem validate_coupon_malformed_expiry
    (code_ : string) (uid : option Z) (c : coupon) (text : string) :
  find_coupon_by_code store code_ = Some c ->
  expiry_date c = Some text ->
  text <> "" ->
  (String.length text = 10%nat -> strptime text DATE_FORMAT = None) ->
  strptime text DATETIME_FORMAT = None ->
  let result := validate_coupon strptime now store code_ uid in
  let plain := validate_coupon strptime now (forget_expiry store) code_ uid in
  error result <> Some "Coupon has expired."
  /\ valid result = valid plain
  /\ error result = error plain.
Proof.
  intros Hc He Hne Hdate Htime. cbv zeta.
  assert (Hx : expiry_check strptime now c = false).
  { unfold expiry_check. rewrite He.
    destruct (String.eqb text ""); [reflexivity|].
    destruct (Nat.eqb (String.length text) 10) eqn:Hlen.
    - apply Nat.eqb_eq in Hlen. rewrite (Hdate Hlen). reflexivity.
    - rewrite Htime. reflexivity. }
  assert (Hp : find_coupon_by_code (forget_expiry store) code_ = Some (clear_expiry c)).
  { unfold find_coupon_by_code in *. cbn [find_coupon forget_expiry].
    destruct (find_coupon store code_) as [[|c0 l]|]; try discriminate.
    inversion Hc; subst. reflexivity. }
  unfold validate_coupon. rewrite Hc, Hp, Hx.
  assert (Hx' : expiry_check strptime now (clear_expiry c) = false) by reflexivity.
  rewrite Hx'.
  change (is_active (clear_expiry c)) with (is_active c).
  change (usage_check (clear_expiry c)) with (usage_check c).
  change (user_check (forget_expiry store) (clear_expiry c) uid)
    with (user_check store c uid).
  destruct (is_active c); cbn [negb].
  - destruct (usage_check c); [repeat split; discriminate || reflexivity|].
    destruct (user_check store c uid); repeat split; discriminate || reflexivity.
  - repeat split; discriminate || reflexivity.
Qed.

End CouponValidation.

(** ** Referral registration *)

Section Referral.
Import Database Affiliates.

(** C8. [register_referral(X, X)] returns [False], makes no call on the
    store, not even a lookup, and leaves it as it was. *)
Theorem register_referral_self (x : Z) (d : db) :
  register_referral x x d = (false, d, []).
Proof. unfold register_referral. rewrite Z.eqb_refl. reflexivity. Qed.










End Referral.

(** ** Server selection *)

Section ServerSelection.
Import PyNum Database Utils Examples.

(** An empty table of servers gives [None]. *)
Lemma select_best_server_empty
    (find_order : Z -> option (option (list order_row))) (d : db) :
  servers d = [] -> select_best_server_for_user find_order d = None.
Proof.
  intros H. unfold select_best_server_for_user, select_servers.
  rewrite H. reflexivity.
Qed.

Lemma select_loop_inactive
    (find_order : Z -> option (option (list order_row)))
    (l : list server_row) (best : option server_row) (score : pynum) :
  forallb (fun s => negb (is_active s)) l = true ->
  select_loop find_order l best score = None
  \/ select_loop find_order l best score = Some best.
Proof.
  induction l as [|s l IH]; intros H; [right; reflexivity|].
  simpl in H. apply andb_true_iff in H. destruct H as [Hs Hl].
  simpl. destruct (find_order (server_id s)); [|left; reflexivity].
  rewrite Hs. exact (IH Hl).
Qed.

(** A table in which every server is inactive gives [None]. *)
Lemma select_best_server_all_inactive
    (find_order : Z -> option (option (list order_row))) (d : db) :
  forallb (fun s => negb (is_active s)) (servers d) = true ->
  select_best_server_for_user find_order d = None.
Proof.
  intros H. unfold select_best_server_for_user, select_servers.
  destruct (servers d) as [|s l] eqn:E; [reflexivity|].
  cbn [rows_or_none].
  destruct (select_loop_inactive find_order (s :: l) None (PyFloat pos_inf) H) as [R|R];
    rewrite R; reflexivity.
Qed.

(** With limits set, the less loaded of two equal servers is chosen. *)
Lemma select_best_server_two_servers :
  select_best_server_for_user (orders_of_server store_two_servers) store_two_servers
  = Some server_b.
Proof. vm_compute. reflexivity. Qed.

(** With [find_order] as the store defines it, every non-empty table
    gives [None]. *)
Lemma select_best_server_users_db (d : db) :
  select_best_server_for_user USERS_DB_find_order d = None.
Proof.
  unfold select_best_server_for_user, select_servers.
  destruct (servers d) as [|s l]; reflexivity.
Qed.

(** C6. A store whose only server is active and has no user limit set:
    whatever the order lookup answers, the function returns [None]
    and not that server. *)
Theorem select_best_server_unset_limit :
  servers store_without_limit = [server_without_limit]
  /\ is_active server_without_limit = true
  /\ user_limit server_without_limit = Null
  /\ forall find_order : Z -> option (option (list order_row)),
       select_best_server_for_user find_order store_without_limit = None.
Proof.
  repeat split.
  intros find_order.
  unfold select_best_server_for_user. cbn.
  destruct (find_order 1) as [[[|o os]|]|]; reflexivity.
Qed.

End ServerSelection.

(** ** Renewal arithmetic and the advanced gate *)

Section Renewal.
Import PyNum Database UserBot Examples.








End Renewal.

(** ** Compensation of a wallet debit *)

Section Compensation.
Import PyNum Database UserBot Examples.









End Compensation.

(** ** The properties at concrete inputs *)

Section Instances.
Import PyNum Database Coupons CouponSpec Affiliates UserBot Examples.

(** A coupon that is both expired and used up is reported expired. *)
Lemma stale_coupon_reported_expired :
  applies strict_strptime a_day_in_2024 coupon_store "STALE" None EXPIRED = true
  /\ applies strict_strptime a_day_in_2024 coupon_store "STALE" None EXHAUSTED = true
  /\ validate_coupon strict_strptime a_day_in_2024 coupon_store "STALE" None
     = mk_validation false (Some stale_coupon) (Some "Coupon has expired.").
Proof. repeat split; vm_compute; reflexivity. Qed.

Lemma validate_coupon_malformed_expiry_witness :
  let result := validate_coupon strict_strptime a_day_in_2024 coupon_store "ODD" None in
  let plain := validate_coupon strict_strptime a_day_in_2024
                 (forget_expiry coupon_store) "ODD" None in
  error result <> Some "Coupon has expired."
  /\ valid result = valid plain
  /\ error result = error plain.
Proof.
  apply (validate_coupon_malformed_expiry strict_strptime a_day_in_2024 coupon_store
           "ODD" None odd_coupon "31/12/2020").
  - reflexivity.
  - reflexivity.
  - discriminate.
  - intros _. vm_compute. reflexivity.
  - vm_compute. reflexivity.
Defined.



End Instances.

(** ** Version comparison and the choice of schema updates *)

Section Versions.
Import Version.

Lemma first_difference_same (l : list Z) : first_difference (combine l l) = false.
Proof.
  induction l as [|x l IH]; [reflexivity|].
  simpl. rewrite Z.gtb_ltb, Z.ltb_irrefl. exact IH.
Qed.

Lemma first_difference_snoc (l : list (Z * Z)) :
  first_difference (l ++ [(0, 0)]) = first_difference l.
Proof.
  induction l as [|[a b] l IH]; [reflexivity|].
  simpl. rewrite IH. reflexivity.
Qed.

Lemma combine_snoc {A B : Type} (l1 : list A) (l2 : list B) (a : A) (b : B) :
  List.length l1 = List.length l2 ->
  combine (l1 ++ [a]) (l2 ++ [b]) = combine l1 l2 ++ [(a, b)].
Proof.
  revert l2. induction l1 as [|x l1 IH]; intros [|y l2] H; simpl in *;
    try discriminate; [reflexivity|].
  rewrite IH by congruence. reflexivity.
Qed.

Lemma pad_length (l : list Z) (n : nat) :
  (List.length l <= n)%nat -> List.length (pad l n) = n.
Proof. intros H. unfold pad. rewrite length_app, repeat_length. lia. Qed.

Lemma pad_succ (l : list Z) (n : nat) :
  (List.length l <= n)%nat -> pad l (S n) = pad l n ++ [0].
Proof.
  intros H. unfold pad.
  replace (S n - List.length l)%nat with (S (n - List.length l)) by lia.
  rewrite <- app_assoc. f_equal.
  change (repeat 0 (S (n - List.length l))) with (0 :: repeat 0 (n - List.length l)).
  apply repeat_cons.
Qed.

(** Padding both sides further does not change the comparison. *)
Lemma padded_further (p q : list Z) (n m : nat) :
  (List.length p <= n)%nat -> (List.length q <= n)%nat -> (n <= m)%nat ->
  first_difference (combine (pad p m) (pad q m))
  = first_difference (combine (pad p n) (pad q n)).
Proof.
  intros Hp Hq Hnm. induction Hnm as [|m Hnm IH]; [reflexivity|].
  rewrite (pad_succ p m), (pad_succ q m) by lia.
  rewrite combine_snoc by (rewrite !pad_length; lia).
  rewrite first_difference_snoc. exact IH.
Qed.

Lemma parts_less_padded (p q : list Z) (n : nat) :
  (List.length p <= n)%nat -> (List.length q <= n)%nat ->
  parts_less p q = first_difference (combine (pad p n) (pad q n)).
Proof.
  intros Hp Hq. unfold parts_less. symmetry.
  apply padded_further; lia.
Qed.

Lemma first_difference_trans (l1 l2 l3 : list Z) :
  List.length l1 = List.length l2 -> List.length l2 = List.length l3 ->
  first_difference (combine l1 l2) = true ->
  first_difference (combine l2 l3) = true ->
  first_difference (combine l1 l3) = true.
Proof.
  revert l2 l3. induction l1 as [|a l1 IH]; intros [|b l2] [|c l3] H12 H23;
    simpl in *; try discriminate.
  destruct (Z.ltb_spec a b), (Z.ltb_spec b c), (Z.ltb_spec a c);
    try reflexivity; try lia;
    destruct (Z.gtb_spec a b), (Z.gtb_spec b c), (Z.gtb_spec a c);
    try discriminate; try lia.
  apply IH; congruence.
Qed.

Lemma parts_less_trans (p q r : list Z) :
  parts_less p q = true -> parts_less q r = true -> parts_less p r = true.
Proof.
  set (n := Nat.max (List.length p) (Nat.max (List.length q) (List.length r))).
  rewrite (parts_less_padded p q n), (parts_less_padded q r n),
    (parts_less_padded p r n) by lia.
  apply first_difference_trans; rewrite !pad_length; lia.
Qed.

Lemma parts_less_irrefl (p : list Z) : parts_less p p = false.
Proof. unfold parts_less. apply first_difference_same. Qed.

Lemma is_version_less_trans (py_int : string -> option Z) (v1 v2 v3 : string) :
  is_version_less py_int v1 v2 = true ->
  is_version_less py_int v2 v3 = true ->
  is_version_less py_int v1 v3 = true.
Proof.
  unfold is_version_less.
  destruct (version_parts py_int v1) as [p|]; [|discriminate].
  destruct (version_parts py_int v2) as [q|]; [|discriminate].
  destruct (version_parts py_int v3) as [r|]; [|discriminate].
  apply parts_less_trans.
Qed.

(** X1. [is_version_less] is a strict order on version texts: no
    version is less than itself, and the relation is transitive, for
    every reading of the parts. *)
Theorem is_version_less_strict_order (py_int : string -> option Z) :
  (forall v, is_version_less py_int v v = false)
  /\ (forall v1 v2 v3,
        is_version_less py_int v1 v2 = true ->
        is_version_less py_int v2 v3 = true ->
        is_version_less py_int v1 v3 = true).
Proof.
  split.
  - intros v. unfold is_version_less.
    destruct (version_parts py_int v); [apply parts_less_irrefl | reflexivity].
  - intros v1 v2 v3. apply is_version_less_trans.
Qed.

Lemma is_version_less_strict_order_witness :
  is_version_less digits_int "5.9.5" "6.2.0" = true.
Proof.
  apply (proj2 (is_version_less_strict_order digits_int) "5.9.5" "6.1" "6.2.0");
    vm_compute; reflexivity.
Defined.

Lemma tuple_compare_first_difference (p q : list Z) :
  List.length p = List.length q ->
  (first_difference (combine p q) = true <-> tuple_compare p q = Lt).
Proof.
  revert q. induction p as [|a p IH]; intros [|b q] H; simpl in *; try discriminate.
  - split; discriminate.
  - destruct (Z.compare_spec a b) as [E|L|G].
    + subst. rewrite Z.gtb_ltb, Z.ltb_irrefl.
      apply IH. congruence.
    + apply Z.ltb_lt in L. rewrite L. split; reflexivity.
    + destruct (Z.ltb_spec a b); [lia|].
      destruct (Z.gtb_spec a b); [|lia]. split; discriminate.
Qed.

(** X2. On two readable versions with the same number of parts,
    [is_version_less] holds exactly when [compare_versions] gives -1. *)
Theorem is_version_less_agrees_with_compare_versions
    (py_int : string -> option Z) (v1 v2 : string) (p q : list Z) :
  version_parts py_int v1 = Some p ->
  version_parts py_int v2 = Some q ->
  List.length p = List.length q ->
  (is_version_less py_int v1 v2 = true <-> compare_versions py_int v1 v2 = -1).
Proof.
  intros H1 H2 Hlen. unfold is_version_less, compare_versions, get_version_tuple.
  rewrite H1, H2.
  rewrite (parts_less_padded p q (List.length p)) by lia.
  assert (Hp : pad p (List.length p) = p).
  { unfold pad. rewrite Nat.sub_diag. apply app_nil_r. }
  assert (Hq : pad q (List.length p) = q).
  { unfold pad. rewrite Hlen, Nat.sub_diag. apply app_nil_r. }
  rewrite Hp, Hq.
  rewrite (tuple_compare_first_difference p q Hlen).
  destruct (tuple_compare p q); split; intros H; try reflexivity; discriminate.
Qed.

Lemma is_version_less_agrees_with_compare_versions_witness :
  is_version_less digits_int "6.1.5" "6.2.0" = true
  <-> compare_versions digits_int "6.1.5" "6.2.0" = -1.
Proof.
  apply (is_version_less_agrees_with_compare_versions digits_int
           "6.1.5" "6.2.0" [6; 1; 5] [6; 2; 0]); reflexivity.
Defined.

Lemma tuple_compare_prefix (p zs : list Z) (z : Z) :
  tuple_compare p (p ++ z :: zs) = Lt.
Proof.
  induction p as [|a p IH]; [reflexivity|].
  simpl. rewrite Z.compare_refl. exact IH.
Qed.

(** X3. Trailing zero parts: when one version reads as the other
    followed by zeros (6.2 and 6.2.0), [is_version_less] holds in neither
    direction, while [compare_versions] ranks the shorter one below the
    longer one. *)
Theorem trailing_zeros_disagree
    (py_int : string -> option Z) (v1 v2 : string) (p : list Z) (k : nat) :
  version_parts py_int v1 = Some p ->
  version_parts py_int v2 = Some (p ++ repeat 0 (S k)) ->
  is_version_less py_int v1 v2 = false
  /\ is_version_less py_int v2 v1 = false
  /\ compare_versions py_int v1 v2 = -1.
Proof.
  intros H1 H2. unfold is_version_less, compare_versions, get_version_tuple.
  rewrite H1, H2.
  assert (Hpad : pad p (List.length p + S k) = p ++ repeat 0 (S k)).
  { unfold pad. f_equal. f_equal. lia. }
  assert (Hlen : List.length (p ++ repeat 0 (S k)) = (List.length p + S k)%nat).
  { rewrite length_app, repeat_length. reflexivity. }
  assert (Hfull : pad (p ++ repeat 0 (S k)) (List.length p + S k) = p ++ repeat 0 (S k)).
  { unfold pad. rewrite Hlen, Nat.sub_diag. apply app_nil_r. }
  repeat split.
  - rewrite (parts_less_padded _ _ (List.length p + S k)) by lia.
    rewrite Hpad, Hfull. apply first_difference_same.
  - rewrite (parts_less_padded _ _ (List.length p + S k)) by lia.
    rewrite Hpad, Hfull. apply first_difference_same.
  - change (repeat 0 (S k)) with (0 :: repeat 0 k).
    rewrite tuple_compare_prefix. reflexivity.
Qed.

Lemma trailing_zeros_disagree_witness :
  is_version_less digits_int "6.2" "6.2.0" = false
  /\ is_version_less digits_int "6.2.0" "6.2" = false
  /\ compare_versions digits_int "6.2" "6.2.0" = -1.
Proof.
  apply (trailing_zeros_disagree digits_int "6.2" "6.2.0" [6; 2] 0); reflexivity.
Defined.



End Versions.

(** ** Currency units *)

Section Currency.
Import Money.

(** X5. Converting tomans to rials and back gives the tomans again;
    converting rials to tomans and back drops the last digit of the
    amount (rounding toward minus infinity), so it never gives more than
    the rials it started from and gives them back exactly when they are
    a multiple of ten. *)
Theorem toman_rial_round_trip :
  (forall t : Z, rial_to_toman (Some (toman_to_rial (Some t))) = t)
  /\ (forall r : Z,
        toman_to_rial (Some (rial_to_toman (Some r))) = r - r mod 10
        /\ toman_to_rial (Some (rial_to_toman (Some r))) <= r
        /\ (toman_to_rial (Some (rial_to_toman (Some r))) = r <-> r mod 10 = 0)).
Proof.
  split.
  - intros t. unfold rial_to_toman, toman_to_rial. apply Z.div_mul. discriminate.
  - intros r. unfold rial_to_toman, toman_to_rial.
    pose proof (Z.div_mod r 10 ltac:(discriminate)) as D.
    pose proof (Z.mod_pos_bound r 10 ltac:(lia)) as B.
    repeat split; lia.
Qed.

End Currency.

(** ** The merged settings *)

Section MergedSettings.
Import PyDict Settings.

Lemma lookup_app {V : Type} (k : string) (d1 d2 : dict V) :
  lookup k (d1 ++ d2)
  = match lookup k d1 with Some v => Some v | None => lookup k d2 end.
Proof.
  induction d1 as [|[k' v] d1 IH]; [reflexivity|].
  simpl. destruct (String.eqb k' k); [reflexivity | exact IH].
Qed.

Lemma absorb_rev (rows : list (string * setting)) (d : dict setting) :
  absorb rows d = rev rows ++ d.
Proof.
  unfold absorb. revert d. induction rows as [|[k v] rows IH]; intros d; [reflexivity|].
  simpl. rewrite IH. unfold set. simpl. rewrite <- app_assoc. reflexivity.
Qed.

Lemma settings_lookup (c : config_tables) (k : string) :
  lookup k (all_configs_settings c)
  = match lookup k (rev (str_config c)) with
    | Some v => Some v
    | None =>
        match lookup k (rev (int_config c)) with
        | Some v => Some v
        | None => lookup k (rev (bool_config c))
        end
    end.
Proof.
  unfold all_configs_settings. rewrite !absorb_rev, !lookup_app.
  destruct (lookup k (rev (str_config c))); [reflexivity|].
  destruct (lookup k (rev (int_config c))); [reflexivity|].
  destruct (lookup k (rev (bool_config c))); reflexivity.
Qed.

Lemma lookup_unique {V : Type} (k : string) (v : V) (d : dict V) :
  NoDup (map fst d) -> In (k, v) d -> lookup k d = Some v.
Proof.
  induction d as [|[k' v'] d IH]; intros Hnd Hin; [contradiction|].
  simpl in *. inversion Hnd as [|? ? Hnotin Hnd']; subst.
  destruct Hin as [E|Hin].
  - inversion E; subst. rewrite String.eqb_refl. reflexivity.
  - destruct (String.eqb_spec k' k) as [E|N].
    + subst. exfalso. apply Hnotin. apply (in_map fst) in Hin. exact Hin.
    + exact (IH Hnd' Hin).
Qed.

Lemma lookup_missing {V : Type} (k : string) (d : dict V) :
  (forall v, ~ In (k, v) d) -> lookup k d = None.
Proof.
  induction d as [|[k' v'] d IH]; intros H; [reflexivity|].
  simpl. destruct (String.eqb_spec k' k) as [E|N].
  - subst. exfalso. apply (H v'). left. reflexivity.
  - apply IH. intros v Hin. apply (H v). right. exact Hin.
Qed.

Lemma lookup_rev_unique {V : Type} (k : string) (v : V) (d : dict V) :
  NoDup (map fst d) -> In (k, v) d -> lookup k (rev d) = Some v.
Proof.
  intros Hnd Hin. apply lookup_unique.
  - rewrite map_rev. apply NoDup_rev. exact Hnd.
  - apply in_rev in Hin. exact Hin.
Qed.

Lemma lookup_rev_missing {V : Type} (k : string) (d : dict V) :
  (forall v, ~ In (k, v) d) -> lookup k (rev d) = None.
Proof.
  intros H. apply lookup_missing. intros v Hin. apply (H v).
  apply in_rev. exact Hin.
Qed.

(** X6. In the merged settings a key reads the value of the string
    table when that table has the key, else the value of the integer
    table, else the value of the boolean table (keys are unique within
    a table, being its primary key). *)
Theorem settings_precedence (c : config_tables) (k : string) (v : setting) :
  NoDup (map fst (str_config c)) ->
  NoDup (map fst (int_config c)) ->
  NoDup (map fst (bool_config c)) ->
  (In (k, v) (str_config c) -> lookup k (all_configs_settings c) = Some v)
  /\ ((forall w, ~ In (k, w) (str_config c)) -> In (k, v) (int_config c) ->
      lookup k (all_configs_settings c) = Some v)
  /\ ((forall w, ~ In (k, w) (str_config c)) -> (forall w, ~ In (k, w) (int_config c)) ->
      In (k, v) (bool_config c) -> lookup k (all_configs_settings c) = Some v)
  /\ ((forall w, ~ In (k, w) (str_config c)) -> (forall w, ~ In (k, w) (int_config c)) ->
      (forall w, ~ In (k, w) (bool_config c)) -> lookup k (all_configs_settings c) = None).
Proof.
  intros Hs Hi Hb. rewrite settings_lookup. repeat split.
  - intros Hin. rewrite (lookup_rev_unique k v _ Hs Hin). reflexivity.
  - intros Hno Hin. rewrite (lookup_rev_missing k _ Hno), (lookup_rev_unique k v _ Hi Hin).
    reflexivity.
  - intros Hno1 Hno2 Hin.
    rewrite (lookup_rev_missing k _ Hno1), (lookup_rev_missing k _ Hno2).
    exact (lookup_rev_unique k v _ Hb Hin).
  - intros Hno1 Hno2 Hno3.
    rewrite (lookup_rev_missing k _ Hno1), (lookup_rev_missing k _ Hno2).
    exact (lookup_rev_missing k _ Hno3).
Qed.

Lemma lookup_all_same {V : Type} (k : string) (v : V) (d : dict V) :
  (forall row, In row d -> fst row = k -> snd row = v) ->
  (exists row, In row d /\ fst row = k) ->
  lookup k d = Some v.
Proof.
  induction d as [|[k' v'] d IH]; intros Hall [row [Hin Hk]]; [contradiction|].
  simpl. destruct (String.eqb_spec k' k) as [E|N].
  - f_equal. apply (Hall (k', v')); [left; reflexivity | exact E].
  - apply IH.
    + intros r Hr. apply Hall. right. exact Hr.
    + destruct Hin as [E|Hin]; [subst row; simpl in Hk; contradiction|].
      exists row. split; assumption.
Qed.

(** X7. After [edit_int_config(key, value)], whether the key existed or
    not, the merged settings read that value for the key, unless the
    string table holds the same key (which then still hides it). *)
Theorem edit_int_config_then_read (c : config_tables) (k : string) (z : Z) :
  (forall w, ~ In (k, w) (str_config c)) ->
  fst (edit_int_config k z c) = true
  /\ lookup k (all_configs_settings (snd (edit_int_config k z c))) = Some (IntValue z).
Proof.
  intros Hno. unfold edit_int_config.
  destruct (existsb (fun row => String.eqb (fst row) k) (int_config c)) eqn:E;
    cbn [fst snd]; (split; [reflexivity|]);
    rewrite settings_lookup; cbn [str_config int_config bool_config];
    rewrite (lookup_rev_missing k _ Hno).
  - apply existsb_exists in E. destruct E as [row [Hin Hk]].
    apply String.eqb_eq in Hk.
    rewrite (lookup_all_same k (IntValue z)); [reflexivity | |].
    + intros r Hr Hfst. apply in_rev in Hr. apply in_map_iff in Hr.
      destruct Hr as [r0 [Hr0 _]]. subst r.
      destruct (String.eqb (fst r0) k) eqn:Er; [reflexivity|].
      apply String.eqb_neq in Er. contradiction.
    + exists (fst row, IntValue z). split; [|exact Hk].
      rewrite <- in_rev. apply in_map_iff. exists row. split; [|exact Hin].
      rewrite Hk, String.eqb_refl. reflexivity.
  - rewrite rev_app_distr. simpl. rewrite String.eqb_refl. reflexivity.
Qed.

End MergedSettings.

(** ** The in-memory cache *)

Section CacheProperties.
Import PyNum PyDict Cache.

Variable A : Type.

Lemma lookup_del_same {V : Type} (k : string) (d : dict V) : lookup k (del k d) = None.
Proof.
  induction d as [|[k' v] d IH]; [reflexivity|].
  unfold del in *. simpl. destruct (String.eqb k' k) eqn:E; simpl; [exact IH|].
  rewrite E. exact IH.
Qed.

Lemma lookup_del_other {V : Type} (k k' : string) (d : dict V) :
  k' <> k -> lookup k' (del k d) = lookup k' d.
Proof.
  intros N. induction d as [|[k0 v] d IH]; [reflexivity|].
  unfold del in *. simpl. destruct (String.eqb k0 k) eqn:E; simpl.
  - apply String.eqb_eq in E. subst k0.
    destruct (String.eqb_spec k k'); [congruence | exact IH].
  - rewrite IH. reflexivity.
Qed.

(** X8. A value read back within the expiry time of the moment it was
    set is the value that was set, and the cache is left as it is;
    setting a key does not change what any other key reads. *)
Theorem cache_set_then_get
    (key : string) (data : A) (set_at read_at : float) (c : cache A) :
  lt (PyFloat (fsub read_at set_at)) CACHE_EXPIRY_SECONDS = true ->
  get_cached_data A key read_at (set_cached_data A key data set_at c)
  = (Some data, set_cached_data A key data set_at c)
  /\ (forall other t, other <> key ->
        fst (get_cached_data A other t (set_cached_data A key data set_at c))
        = fst (get_cached_data A other t c)).
Proof.
  intros Hfresh. split.
  - unfold get_cached_data, set_cached_data, set. simpl.
    rewrite String.eqb_refl, Hfresh. reflexivity.
  - intros other t N. unfold get_cached_data, set_cached_data, set. simpl.
    destruct (String.eqb_spec key other) as [E|_]; [congruence|].
    destruct (lookup other c) as [[d ts]|]; [|reflexivity].
    destruct (lt (PyFloat (fsub t ts)) CACHE_EXPIRY_SECONDS); reflexivity.
Qed.

(** X9. Reading an entry that is no longer within its expiry time gives
    [None] and removes the entry: every later read of the key, at any
    clock reading, gives [None] too, while the other keys read as
    before. *)
Theorem cache_expired_entry_is_dropped
    (key : string) (data : A) (set_at read_at : float) (c : cache A) :
  lookup key c = Some (data, set_at) ->
  lt (PyFloat (fsub read_at set_at)) CACHE_EXPIRY_SECONDS = false ->
  let after := snd (get_cached_data A key read_at c) in
  fst (get_cached_data A key read_at c) = None
  /\ (forall t, get_cached_data A key t after = (None, after))
  /\ (forall other, other <> key -> lookup other after = lookup other c).
Proof.
  intros Hl Hstale. cbv zeta.
  assert (Hget : get_cached_data A key read_at c = (None, del key c)).
  { unfold get_cached_data. rewrite Hl, Hstale. reflexivity. }
  rewrite Hget. cbn [fst snd]. repeat split.
  - intros t. unfold get_cached_data. rewrite lookup_del_same. reflexivity.
  - intros other N. apply lookup_del_other. exact N.
Qed.

(** X10. [clear_cache] with a non-empty key forgets that key and only
    that key; with no key, or with the empty text as key, it forgets
    every key. *)
Theorem clear_cache_scope (c : cache A) :
  (forall key, key <> "" ->
     lookup key (clear_cache A (Some key) c) = None
     /\ forall other, other <> key ->
          lookup other (clear_cache A (Some key) c) = lookup other c)
  /\ (forall any, lookup any (clear_cache A None c) = None)
  /\ (forall any, lookup any (clear_cache A (Some "") c) = None).
Proof.
  repeat split.
  - unfold clear_cache. destruct (String.eqb_spec key ""); [contradiction|].
    apply lookup_del_same.
  - intros other N. unfold clear_cache.
    destruct (String.eqb_spec key ""); [contradiction|].
    apply lookup_del_other. exact N.
Qed.

End CacheProperties.

(** ** Order statistics *)

Section OrderStatistics.
Import Database Statistics.

Lemma statistics_of_orders (d : db) :
  get_order_statistics d
  = (Z.of_nat (List.length (orders d)),
     fold_left (fun total o => total + order_price o) (orders d) 0).
Proof.
  unfold get_order_statistics, select_orders.
  destruct (orders d); reflexivity.
Qed.

(** X11. A successful [add_order] raises the order statistics by
    exactly one order and by exactly its price; a refused one leaves
    them as they were. *)
Theorem add_order_statistics
    (tid pid sid : Z) (uuid : string) (price_ : Z) (d : db) :
  let '(status, d') := add_order tid pid sid uuid price_ d in
  let '(total_orders, total_revenue) := get_order_statistics d in
  get_order_statistics d'
  = match status with
    | Some _ => (total_orders + 1, total_revenue + price_)
    | None => (total_orders, total_revenue)
    end.
Proof.
  unfold add_order.
  destruct (_ || _ || _ || _).
  - destruct (get_order_statistics d). reflexivity.
  - rewrite !statistics_of_orders. cbn [orders].
    rewrite length_app, fold_left_app. cbn [List.length fold_left order_price].
    f_equal. lia.
Qed.

End OrderStatistics.

(** ** The store: wallets, orders and referrals *)

Section StoreProperties.
Import Database.








Lemma next_id_above (ids : list Z) (i : Z) : In i ids -> i < next_id ids.
Proof.
  unfold next_id. induction ids as [|j ids IH]; [contradiction|].
  cbn [fold_right In]. intros [E|Hin]; [subst; lia|]. specialize (IH Hin). lia.
Qed.

(** X13. [add_order] keeps the two keys of the table unique: when no
    two orders share an id or a uuid before, none do afterwards; a
    successful insertion appends exactly one row, whose id is larger
    than every id in use, and a refused one changes nothing. *)
Theorem add_order_keeps_keys_unique
    (tid pid sid : Z) (uuid : string) (price_ : Z) (d : db) :
  NoDup (map order_id (orders d)) ->
  NoDup (map order_uuid (orders d)) ->
  let '(status, d') := add_order tid pid sid uuid price_ d in
  NoDup (map order_id (orders d'))
  /\ NoDup (map order_uuid (orders d'))
  /\ match status with
     | Some oid =>
         orders d' = orders d ++ [mk_order oid tid pid sid uuid price_ true]
         /\ (forall o, In o (orders d) -> order_id o < oid)
     | None => d' = d
     end.
Proof.
  intros Hid Huuid. unfold add_order.
  destruct (existsb (fun o => String.eqb (order_uuid o) uuid) (orders d)) eqn:Eu;
    [cbn [orb]; repeat split; assumption|].
  destruct (_ || _ || _ || _); [repeat split; assumption|].
  cbn [orders]. rewrite !map_app. cbn [map order_id order_uuid].
  assert (Habove : forall o, In o (orders d) ->
                     order_id o < next_id (map order_id (orders d))).
  { intros o Ho. apply next_id_above. apply in_map. exact Ho. }
  repeat split.
  - apply NoDup_app; [exact Hid | repeat constructor; intros [] |].
    intros i Hi [E|[]]. subst i.
    apply in_map_iff in Hi. destruct Hi as [o [Eo Ho]].
    specialize (Habove o Ho). lia.
  - apply NoDup_app; [exact Huuid | repeat constructor; intros [] |].
    intros u Hu [E|[]]. subst u.
    apply in_map_iff in Hu. destruct Hu as [o [Eo Ho]].
    assert (X : existsb (fun o => String.eqb (order_uuid o) uuid) (orders d) = true).
    { apply existsb_exists. exists o. split; [exact Ho|].
      rewrite Eo. apply String.eqb_refl. }
    congruence.
  - exact Habove.
Qed.

(** X14. [add_referral] never stores a pair twice: when every pair has
    at most one row before the call, every pair has at most one row
    after it, whatever the arguments. *)
Theorem add_referral_keeps_pairs_unique (a b : Z) (d : db) :
  (forall x y, (referral_rows x y d <= 1)%nat) ->
  forall x y, (referral_rows x y (snd (add_referral a b d)) <= 1)%nat.
Proof.
  intros H x y. unfold add_referral.
  destruct (existsb (same_pair a b) (referrals d)) eqn:E; [apply H|].
  destruct (_ || _); [apply H|].
  cbn [snd]. unfold referral_rows in *. cbn [referrals].
  rewrite filter_app, length_app. cbn [filter].
  destruct (same_pair x y (mk_referral _ a b 0)) eqn:S; cbn [List.length];
    [|specialize (H x y); lia].
  unfold same_pair in S. cbn [referrer_id referred_id] in S.
  apply andb_true_iff in S. destruct S as [Sa Sb].
  apply Z.eqb_eq in Sa. apply Z.eqb_eq in Sb. subst x y.
  assert (Z0 : filter (same_pair a b) (referrals d) = []).
  { clear H. induction (referrals d) as [|r rs IH]; [reflexivity|].
    simpl in *. apply orb_false_iff in E. destruct E as [E1 E2].
    rewrite E1. exact (IH E2). }
  rewrite Z0. simpl. lia.
Qed.

End StoreProperties.

(** ** Referrals and commissions *)

Section ReferralOutcomes.
Import PyNum Database Affiliates Commission.




End ReferralOutcomes.

(** ** The sign of a commission *)

Section CommissionSign.
Import PyNum Affiliates.

Lemma negative_float_below_zero (m : positive) (e : Z) :
  float_cmp_int (S754_finite true m e) 0 = Some Lt.
Proof.
  unfold float_cmp_int. f_equal. destruct e as [|p|p].
  - reflexivity.
  - apply Z.compare_lt_iff.
    assert (0 < 2 ^ Zpos p) by (apply Z.pow_pos_nonneg; lia). nia.
  - reflexivity.
Qed.

Lemma product_with_unsigned_zero (x : float) (s : bool) (v : Z) :
  int_of_float (fmul x (S754_zero s)) = Some v -> 0 <= v.
Proof.
  destruct x as [sx|sx| |sx mx ex]; simpl; intros H; inversion H; lia.
Qed.

Lemma float_rate_share_nonneg (a : Z) (f : float) (v : Z) :
  0 <= a -> le (PyInt 0) (PyFloat f) = true ->
  int_percent_of a (PyFloat f) = Some v -> 0 <= v.
Proof.
  intros Ha Hle. unfold int_percent_of, div_100, int_mul_float, to_float.
  assert (Hh : of_int 100 = Some (S754_finite false 7036874417766400 (-46)))
    by (vm_compute; reflexivity).
  rewrite Hh.
  destruct (of_int a) as [fa|] eqn:Ea.
  2:{ destruct (fdiv f _); discriminate. }
  pose proof (of_int_sign a fa Ha Ea) as Hfa.
  destruct f as [s|s| |s m e].
  - cbn. apply product_with_unsigned_zero.
  - cbn. destruct fa as [sx|sx| |sx mx ex]; simpl; discriminate.
  - cbn. destruct fa as [sx|sx| |sx mx ex]; simpl; discriminate.
  - destruct s.
    + unfold le, compare in Hle. rewrite negative_float_below_zero in Hle.
      discriminate.
    + destruct (fdiv (S754_finite false m e) _) as [r|] eqn:Er; [|discriminate].
      cbn [option_map]. apply int_of_float_nonneg. apply SFmul_sign; [exact Hfa|].
      apply (fdiv_sign _ _ r) in Er; [exact Er | reflexivity | reflexivity].
Qed.

Lemma share_nonneg (a : Z) (rate : pynum) (v : Z) :
  0 <= a -> rate_in_range rate = true ->
  int_percent_of a rate = Some v -> 0 <= v.
Proof.
  intros Ha Hr. unfold rate_in_range in Hr. apply andb_true_iff in Hr.
  destruct Hr as [Hlow _]. destruct rate as [z|f].
  - apply int_percent_of_nonneg; [exact Ha|].
    unfold le, compare in Hlow.
    destruct (0 ?= z) eqn:C; try discriminate.
    + apply Z.compare_eq in C. lia.
    + assert (0 < z) by exact C. lia.
  - apply float_rate_share_nonneg; assumption.
Qed.

(** X17. The commission on a non-negative order amount is never
    negative, for every rate, int or float, in range or not, given or
    omitted. *)
Theorem calculate_commission_nonneg (amount : Z) (rate : option pynum) :
  0 <= amount -> 0 <= calculate_commission amount rate.
Proof.
  intros Ha. unfold calculate_commission.
  set (r0 := match rate with None => DEFAULT_COMMISSION_RATE_PERCENTAGE | Some r => r end).
  destruct (rate_in_range r0) eqn:Hr; cbn [negb].
  - destruct (int_percent_of amount r0) as [v|] eqn:E; [|lia].
    exact (share_nonneg amount r0 v Ha Hr E).
  - destruct (int_percent_of amount DEFAULT_COMMISSION_RATE_PERCENTAGE) as [v|] eqn:E; [|lia].
    apply (share_nonneg amount DEFAULT_COMMISSION_RATE_PERCENTAGE v Ha); [reflexivity | exact E].
Qed.

Lemma calculate_commission_nonneg_witness :
  0 <= calculate_commission 123456 (Some (PyInt 37)).
Proof. apply calculate_commission_nonneg. lia. Defined.

End CommissionSign.

(** ** Coupons: verdicts, expiry days and the coupon tables *)

Section CouponVerdicts.
Import PyNum Coupons.

Variable strptime : string -> string -> option datetime.
Variable now : datetime.
Variable store : db_manager.

(** X18. A coupon is reported valid only if it was found, is active,
    has not run out at the clock reading, has uses left and has no usage
    record of the given user; the coupon handed back is the stored one
    and no error text comes with it. *)
Theorem valid_verdict_is_sound (code_ : string) (uid : option Z) :
  valid (validate_coupon strptime now store code_ uid) = true ->
  exists c,
    find_coupon_by_code store code_ = Some c
    /\ coupon_of (validate_coupon strptime now store code_ uid) = Some c
    /\ error (validate_coupon strptime now store code_ uid) = None
    /\ is_active c = true
    /\ expiry_check strptime now c = false
    /\ match usage_limit c with Some limit => used_count c < limit | None => True end
    /\ match uid with
       | Some u => find_coupon_usage store (coupon_id c) u = None
                   \/ find_coupon_usage store (coupon_id c) u = Some []
       | None => True
       end.
Proof.
  unfold validate_coupon.
  destruct (find_coupon_by_code store code_) as [c|]; [|discriminate].
  destruct (is_active c) eqn:Ha; cbn [negb]; [|discriminate].
  destruct (expiry_check strptime now c) eqn:He; [discriminate|].
  destruct (usage_check c) eqn:Hu; [discriminate|].
  destruct (user_check store c uid) eqn:Hr; [discriminate|].
  intros _. exists c.
  split; [reflexivity|]. split; [reflexivity|]. split; [reflexivity|].
  split; [exact Ha|]. split; [exact He|]. split.
  - unfold usage_check in Hu. destruct (usage_limit c) as [limit|]; [|exact I].
    destruct (Z.geb_spec (used_count c) limit); [discriminate | lia].
  - unfold user_check in Hr. destruct uid as [u|]; [|exact I].
    destruct (find_coupon_usage store (coupon_id c) u) as [[|r rs]|];
      [right; reflexivity | discriminate | left; reflexivity].
Qed.

(** X19. A date-only expiry counts through the last whole second of its
    day and no further: with the text read as the day (y, m, d), the
    coupon has not expired at any clock reading of that day with zero
    microseconds, has expired at 23:59:59 and one microsecond, and has
    expired at every reading of a later day of the month. *)
Theorem date_only_expiry_boundary (c : coupon) (text : string) (y m d : Z) :
  expiry_date c = Some text ->
  String.length text = 10%nat ->
  strptime text DATE_FORMAT = Some (mk_datetime y m d 0 0 0 0) ->
  (forall h mi s_, h <= 23 -> mi <= 59 -> s_ <= 59 ->
     expiry_check strptime (mk_datetime y m d h mi s_ 0) c = false)
  /\ expiry_check strptime (mk_datetime y m d 23 59 59 1) c = true
  /\ (forall d' h mi s_ us, d < d' ->
        expiry_check strptime (mk_datetime y m d' h mi s_ us) c = true).
Proof.
  intros He Hlen Hp.
  assert (Hne : String.eqb text "" = false).
  { destruct text; [discriminate | reflexivity]. }
  assert (Hcheck : forall t, expiry_check strptime t c
                             = datetime_gt t (mk_datetime y m d 23 59 59 0)).
  { intros t. unfold expiry_check. rewrite He, Hne, Hlen, Hp. reflexivity. }
  repeat split.
  - intros h mi s_ Hh Hmi Hs. rewrite Hcheck.
    unfold datetime_gt, datetime_fields. cbn [lex_compare year month day hour minute second microsecond].
    rewrite !Z.compare_refl.
    destruct (Z.compare_spec h 23); try reflexivity; try lia. subst.
    destruct (Z.compare_spec mi 59); try reflexivity; try lia. subst.
    destruct (Z.compare_spec s_ 59); try reflexivity; lia.
  - rewrite Hcheck. unfold datetime_gt, datetime_fields.
    cbn [lex_compare year month day hour minute second microsecond].
    rewrite !Z.compare_refl. reflexivity.
  - intros d' h mi s_ us Hd. rewrite Hcheck. unfold datetime_gt, datetime_fields.
    cbn [lex_compare year month day hour minute second microsecond].
    rewrite !Z.compare_refl.
    destruct (Z.compare_spec d' d); try reflexivity; lia.
Qed.

End CouponVerdicts.

Section CouponTableProperties.
Import Database Coupons CouponTables.

Lemma find_app_none {A : Type} (f : A -> bool) (l1 l2 : list A) :
  find f l1 = None -> find f (l1 ++ l2) = find f l2.
Proof.
  induction l1 as [|x l1 IH]; [reflexivity|].
  simpl. destruct (f x); [discriminate | exact IH].
Qed.

Lemma find_app_some {A : Type} (f : A -> bool) (l1 l2 : list A) (x : A) :
  find f l1 = Some x -> find f (l1 ++ l2) = Some x.
Proof.
  induction l1 as [|y l1 IH]; [discriminate|].
  simpl. destruct (f y); [auto | exact IH].
Qed.

Lemma existsb_find_none {A : Type} (f : A -> bool) (l : list A) :
  existsb f l = false -> find f l = None.
Proof.
  induction l as [|x l IH]; [reflexivity|].
  simpl. destruct (f x); [discriminate | exact IH].
Qed.

(** X20. [add_coupon] followed by [find_coupon_by_code]: a new code is
    stored with a used count of 0 and is found again with the values
    given, every other code reading as before; a code already in the
    table is refused and nothing changes. *)
Theorem add_coupon_then_find (code_ dtype : string) (value : Z) (limit : option Z)
    (expiry : option string) (active : bool) (s : coupon_db) :
  let '(status, s') := add_coupon code_ dtype value limit expiry active s in
  match status with
  | Some cid =>
      find_coupon_by_code code_ s = None
      /\ find_coupon_by_code code_ s'
         = Some (mk_coupon cid code_ dtype value limit 0 expiry active)
      /\ (forall other, other <> code_ ->
            find_coupon_by_code other s' = find_coupon_by_code other s)
  | None => s' = s /\ find_coupon_by_code code_ s <> None
  end.
Proof.
  unfold add_coupon, find_coupon_by_code.
  destruct (existsb (fun c => String.eqb (code c) code_) (coupons s)) eqn:E.
  - split; [reflexivity|].
    apply existsb_exists in E. destruct E as [c [Hin Hc]].
    intros Hnone. apply (find_none _ _ Hnone) in Hin. congruence.
  - cbn [coupons]. pose proof (existsb_find_none _ _ E) as Hnone.
    split; [exact Hnone|]. split.
    + rewrite (find_app_none _ _ _ Hnone). cbn [find code].
      rewrite String.eqb_refl. reflexivity.
    + intros other N.
      destruct (find (fun c => String.eqb (code c) other) (coupons s)) as [c|] eqn:F.
      * exact (find_app_some _ _ _ c F).
      * rewrite (find_app_none _ _ _ F). cbn [find code].
        destruct (String.eqb_spec code_ other); [congruence | reflexivity].
Qed.

Lemma find_count_use (cid other : Z) (cs : list coupon) :
  find (fun c => coupon_id c =? other) (map (count_use cid) cs)
  = option_map (count_use cid) (find (fun c => coupon_id c =? other) cs).
Proof.
  induction cs as [|c cs IH]; [reflexivity|].
  simpl. assert (Hid : coupon_id (count_use cid c) = coupon_id c).
  { unfold count_use. destruct (coupon_id c =? cid); reflexivity. }
  rewrite Hid. destruct (coupon_id c =? other); [reflexivity | exact IH].
Qed.

(** X21. [use_coupon] succeeds exactly when the coupon and the user
    exist.  It then leaves a usage record that
    [is_coupon_used_by_user] finds, raises the used count of that
    coupon by one and of no other coupon, and keeps the usage records
    there were; when it fails nothing changes. *)
Theorem use_coupon_records_usage (cid uid : Z) (s : coupon_db) :
  let '(status, s') := use_coupon cid uid s in
  (status = true <->
     existsb (fun c => coupon_id c =? cid) (coupons s) = true
     /\ existsb (fun u => telegram_id u =? uid) (users (base s)) = true)
  /\ (status = false -> s' = s)
  /\ (status = true ->
      is_coupon_used_by_user cid uid s' = true
      /\ (forall c u, is_coupon_used_by_user c u s = true ->
            is_coupon_used_by_user c u s' = true)
      /\ used_count_of cid s' = option_map (fun n => n + 1) (used_count_of cid s)
      /\ forall other, other <> cid -> used_count_of other s' = used_count_of other s).
Proof.
  unfold use_coupon.
  destruct (existsb (fun c => coupon_id c =? cid) (coupons s)) eqn:Ec; cbn [negb orb].
  2:{ repeat split; try discriminate. intros [H _]. discriminate. }
  destruct (existsb (fun u => telegram_id u =? uid) (users (base s))) eqn:Eu; cbn [negb].
  2:{ repeat split; try discriminate. intros [_ H]. discriminate. }
  split; [split; [intros _; split; reflexivity | reflexivity]|].
  split; [discriminate|]. intros _.
  unfold is_coupon_used_by_user, used_count_of. cbn [usages coupons].
  split; [|split; [|split]].
  - rewrite existsb_app. cbn [existsb usage_coupon_id usage_user_id].
    rewrite !Z.eqb_refl. cbn. apply orb_true_r.
  - intros c u H. rewrite existsb_app, H. reflexivity.
  - rewrite find_count_use.
    destruct (find (fun c => coupon_id c =? cid) (coupons s)) as [c|] eqn:F; [|reflexivity].
    apply find_some in F. destruct F as [_ F]. cbn [option_map]. f_equal.
    unfold count_use. rewrite F. reflexivity.
  - intros other N. rewrite find_count_use.
    destruct (find (fun c => coupon_id c =? other) (coupons s)) as [c|] eqn:F; [|reflexivity].
    apply find_some in F. destruct F as [_ F]. apply Z.eqb_eq in F.
    cbn [option_map]. f_equal. unfold count_use.
    destruct (coupon_id c =? cid) eqn:E; [apply Z.eqb_eq in E; congruence | reflexivity].
Qed.

End CouponTableProperties.

(** ** The purchase and renewal branches as a whole *)

Section BranchOutcomes.
Import PyNum Database UserBot.














End BranchOutcomes.

(** ** What the server selection returns *)

Section SelectedServer.
Import PyNum Database Utils.

Variable find_order : Z -> option (option (list order_row)).

Lemma select_loop_member (l : list server_row) (best : option server_row)
    (score : pynum) (chosen : server_row) :
  select_loop find_order l best score = Some (Some chosen) ->
  best = Some chosen \/ (In chosen l /\ is_active chosen = true).
Proof.
  revert best score. induction l as [|s l IH]; intros best score H.
  - simpl in H. inversion H. left. reflexivity.
  - simpl in H. destruct (find_order (server_id s)) as [users_on_server|]; [|discriminate].
    destruct (is_active s) eqn:Ha; cbn [negb] in H.
    + destruct (score_of _ s) as [sc|]; [|discriminate].
      destruct (lt sc score).
      * destruct (IH _ _ H) as [E|[Hin Hact]].
        -- inversion E; subst. right. split; [left; reflexivity | exact Ha].
        -- right. split; [right; exact Hin | exact Hact].
      * destruct (IH _ _ H) as [E|[Hin Hact]]; [left; exact E|].
        right. split; [right; exact Hin | exact Hact].
    + destruct (IH _ _ H) as [E|[Hin Hact]]; [left; exact E|].
      right. split; [right; exact Hin | exact Hact].
Qed.

(** X27. Whatever [select_best_server_for_user] returns is an active
    server of the table; when the table is empty or holds no active
    server it returns [None]. *)
Theorem selected_server_is_active (d : db) :
  (forall chosen, select_best_server_for_user find_order d = Some chosen ->
     In chosen (servers d) /\ is_active chosen = true)
  /\ (forallb (fun s => negb (is_active s)) (servers d) = true ->
      select_best_server_for_user find_order d = None).
Proof.
  split.
  - intros chosen. unfold select_best_server_for_user, select_servers.
    destruct (servers d) as [|s l] eqn:E; [discriminate|]. cbn [rows_or_none].
    destruct (select_loop find_order (s :: l) None (PyFloat pos_inf)) as [[c|]|] eqn:L;
      try discriminate.
    intros H. inversion H; subst.
    destruct (select_loop_member _ _ _ _ L) as [X|X]; [discriminate | exact X].
  - apply select_best_server_all_inactive.
Qed.






End SelectedServer.

(** ** The further properties at concrete inputs *)

Section MoreInstances.
Import PyNum Database Coupons Affiliates UserBot Utils Examples MoreExamples.


Lemma settings_precedence_witness :
  PyDict.lookup "channel_id" (Settings.all_configs_settings some_tables)
  = Some (Settings.TextValue "@news").
Proof.
  apply (proj1 (settings_precedence some_tables "channel_id" (Settings.TextValue "@news")
                  ltac:(repeat constructor; simpl; intuition discriminate)
                  ltac:(repeat constructor; simpl; intuition discriminate)
                  ltac:(repeat constructor; simpl; intuition discriminate))).
  left. reflexivity.
Defined.

Lemma edit_int_config_then_read_witness :
  fst (Settings.edit_int_config "test_sub_days" 3 some_tables) = true
  /\ PyDict.lookup "test_sub_days"
       (Settings.all_configs_settings
          (snd (Settings.edit_int_config "test_sub_days" 3 some_tables)))
     = Some (Settings.IntValue 3).
Proof.
  apply (edit_int_config_then_read some_tables "test_sub_days" 3).
  intros w. simpl. intros [H|[]]. discriminate H.
Defined.

Lemma cache_set_then_get_witness :
  Cache.get_cached_data string "plans" (float_of 1100) one_entry
  = (Some "cached plans", one_entry).
Proof.
  apply (proj1 (cache_set_then_get string "plans" "cached plans"
                  (float_of 1000) (float_of 1100) [] ltac:(vm_compute; reflexivity))).
Defined.

Lemma cache_expired_entry_is_dropped_witness :
  fst (Cache.get_cached_data string "plans" (float_of 1400) one_entry) = None.
Proof.
  apply (proj1 (cache_expired_entry_is_dropped string "plans" "cached plans"
                  (float_of 1000) (float_of 1400) one_entry
                  ltac:(reflexivity) ltac:(vm_compute; reflexivity))).
Defined.

Lemma add_order_keeps_keys_unique_witness :
  NoDup (map order_id
           (orders (snd (add_order 100 7 1 "fresh" 30000 shop_with_order)))).
Proof.
  pose proof (add_order_keeps_keys_unique 100 7 1 "fresh" 30000 shop_with_order
                ltac:(repeat constructor; simpl; intuition discriminate)
                ltac:(repeat constructor; simpl; intuition discriminate)) as H.
  destruct (add_order 100 7 1 "fresh" 30000 shop_with_order) as [status d'].
  exact (proj1 H).
Defined.

Lemma add_referral_keeps_pairs_unique_witness :
  (referral_rows 100 200 (snd (add_referral 100 200 (snd (add_referral 100 200 shop)))) <= 1)%nat.
Proof.
  apply (add_referral_keeps_pairs_unique 100 200 (snd (add_referral 100 200 shop))).
  intros x y. apply (add_referral_keeps_pairs_unique 100 200 shop).
  intros x' y'. unfold referral_rows. simpl. lia.
Defined.

Lemma valid_verdict_is_sound_witness :
  exists c,
    Coupons.find_coupon_by_code good_store "GOOD" = Some c
    /\ coupon_of (validate_coupon strict_strptime a_day_in_2024 good_store "GOOD" (Some 100))
       = Some c
    /\ error (validate_coupon strict_strptime a_day_in_2024 good_store "GOOD" (Some 100))
       = None
    /\ Coupons.is_active c = true
    /\ expiry_check strict_strptime a_day_in_2024 c = false
    /\ match usage_limit c with Some limit => used_count c < limit | None => True end
    /\ (find_coupon_usage good_store (coupon_id c) 100 = None
        \/ find_coupon_usage good_store (coupon_id c) 100 = Some []).
Proof.
  apply (valid_verdict_is_sound strict_strptime a_day_in_2024 good_store "GOOD" (Some 100)).
  vm_compute. reflexivity.
Defined.

Lemma date_only_expiry_boundary_witness :
  expiry_check strict_strptime (mk_datetime 2024 6 15 23 59 59 0) good_coupon = false
  /\ expiry_check strict_strptime (mk_datetime 2024 6 15 23 59 59 1) good_coupon = true.
Proof.
  pose proof (date_only_expiry_boundary strict_strptime good_coupon "2024-06-15" 2024 6 15
                ltac:(reflexivity) ltac:(reflexivity) ltac:(vm_compute; reflexivity))
    as (H1 & H2 & _).
  split; [apply H1; lia | exact H2].
Defined.





End MoreInstances.
